(** * Power management of a OneView blade: [ov/power_state.go]

    A shallow embedding of the power-state vocabulary, the power task
    ([PowerTask]) and the submit-and-poll executor, followed by the
    properties of the specification that were checked against it. *)

From Stdlib Require Import ZArith List String Ascii Bool Lia.
Import ListNotations.
Open Scope string_scope.
Open Scope Z_scope.

(* ================================================================== *)
(** ** Go integers and strings *)

(** Go's [int] on the 64-bit targets of the driver: a two's-complement
    64-bit integer.  [wrap_int] is the wrap-around of its arithmetic. *)
Definition int_min : Z := - 2 ^ 63.
Definition int_max : Z := 2 ^ 63 - 1.

Definition int_range (z : Z) : Prop := int_min <= z <= int_max.

Definition wrap_int (z : Z) : Z := (z + 2 ^ 63) mod 2 ^ 64 - 2 ^ 63.

Definition int_sub (x y : Z) : Z := wrap_int (x - y).
Definition int_add (x y : Z) : Z := wrap_int (x + y).
Definition int_mul (x y : Z) : Z := wrap_int (x * y).

(** [strings.ToUpper] on the bytes of a string: the letters [a]..[z] are
    moved to [A]..[Z], every other byte is kept.  This is what Go does on
    ASCII text; a string with other bytes is never upper-cased by Go to one
    of the words of the vocabulary below, as no letter outside ASCII has
    one of their letters as its upper case, and it is not by this
    function either. *)
Definition is_lower (c : ascii) : bool :=
  (Ascii.leb "a" c && Ascii.leb c "z")%char.

Definition is_upper (c : ascii) : bool :=
  (Ascii.leb "A" c && Ascii.leb c "Z")%char.

Definition upper_char (c : ascii) : ascii :=
  if is_lower c then ascii_of_N (N_of_ascii c - 32) else c.

Fixpoint ToUpper (s : string) : string :=
  match s with
  | EmptyString => EmptyString
  | String c s' => String (upper_char c) (ToUpper s')
  end.

(** Equality of two strings up to the case of their letters, character by
    character: the reading of "case-insensitive exact match" that the
    classification is compared with. *)
Definition same_letter (a b : ascii) : bool :=
  (is_upper a && (N_of_ascii b =? N_of_ascii a + 32)%N)
  || (is_upper b && (N_of_ascii a =? N_of_ascii b + 32)%N).

Definition ci_char (a b : ascii) : bool :=
  (a =? b)%char || same_letter a b.

Fixpoint ci_equal (s t : string) : bool :=
  match s, t with
  | EmptyString, EmptyString => true
  | String a s', String b t' => ci_char a b && ci_equal s' t'
  | _, _ => false
  end.

(* ================================================================== *)
(** ** The state vocabulary *)

(** [type PowerState int], with [P_ON = 1 + iota] and its successors. *)
Definition PowerState := Z.

Definition P_ON : PowerState := 1.
Definition P_OFF : PowerState := 2.
Definition P_UKNOWN : PowerState := 3.

Definition powerstates : list string := ["On"; "Off"; "UNKNOWN"].

(** Indexing a Go array: the index is checked against the length, and an
    index outside it is a run-time panic, here [None]. *)
Definition index_array (tbl : list string) (i : Z) : option string :=
  if (0 <=? i) && (i <? Z.of_nat (List.length tbl))
  then nth_error tbl (Z.to_nat i)
  else None.

(** [func (p PowerState) String() string { return powerstates[p-1] }] *)
Definition PowerState_String (p : PowerState) : option string :=
  index_array powerstates (int_sub p 1).

(** [func (p PowerState) Equal(s string) bool] *)
Definition PowerState_Equal (p : PowerState) (s : string) : option bool :=
  match PowerState_String p with
  | Some t => Some (ToUpper s =? ToUpper t)%string
  | None => None
  end.

(** [type PowerControl int], with [P_COLDBOOT = 1 + iota]. *)
Definition PowerControl := Z.

Definition P_COLDBOOT : PowerControl := 1.
Definition P_MOMPRESS : PowerControl := 2.
Definition P_RESET : PowerControl := 3.

Definition powercontrols : list string :=
  ["ColdBoot"; "MomentaryPress"; "Reset"].

(** [func (pc PowerControl) String() string { return powercontrols[pc-1] }] *)
Definition PowerControl_String (pc : PowerControl) : option string :=
  index_array powercontrols (int_sub pc 1).

(* ================================================================== *)
(** ** The data model *)

(** A Go [error] is identified with its message. *)
Definition error := string.

(** Modelled from the spec: the [ServerHardware] struct is declared in
    another file of the package; these are the fields of the hardware unit
    that this file reads (identifier, display name, serial number and the
    last-known power-state string).  Its [Client] field is the handle to the
    remote calls, which are the oracle of the section below. *)
Module ServerHardware.
Record t : Type := mk
  { URI : string;
    Name : string;
    SerialNumber : string;
    PowerState : string }.
End ServerHardware.

(** Modelled from the spec: the [Task] struct is declared in another file of
    the package; these are the fields of the remote task handle that this
    file reads or writes (identifier, display name, owner, lifecycle state,
    percent complete and status text). *)
Module Task.
Record t : Type := mk
  { URI : string;
    Name : string;
    Owner : string;
    TaskState : string;
    ComputedPercentComplete : Z;
    TaskStatus : string }.

(** [&Task{URI: "", Name: "", Owner: ""}]: the other fields take Go's
    zero values. *)
Definition empty : t := mk "" "" "" "" 0 "".
End Task.

(** [type PowerRequest struct] *)
Module PowerRequest.
Record t : Type := mk
  { PowerState : string;
    PowerControl : string }.
End PowerRequest.

(** [type PowerTask struct].  The two pointer fields are [option]s, [None]
    being the nil pointer. *)
Record PowerTask : Type := mkPowerTask
  { Blade : option ServerHardware.t;
    State : PowerState;
    TaskStatus : bool;
    CurrentTask : option Task.t;
    Timeout : Z;
    WaitTime : Z }.

Definition with_Blade (b : option ServerHardware.t) (p : PowerTask) :=
  mkPowerTask b (State p) (TaskStatus p) (CurrentTask p) (Timeout p) (WaitTime p).
Definition with_State (s : PowerState) (p : PowerTask) :=
  mkPowerTask (Blade p) s (TaskStatus p) (CurrentTask p) (Timeout p) (WaitTime p).
Definition with_TaskStatus (d : bool) (p : PowerTask) :=
  mkPowerTask (Blade p) (State p) d (CurrentTask p) (Timeout p) (WaitTime p).
Definition with_CurrentTask (t : option Task.t) (p : PowerTask) :=
  mkPowerTask (Blade p) (State p) (TaskStatus p) t (Timeout p) (WaitTime p).

(** [func (pt *PowerTask) NewPowerTask(b ServerHardware) *PowerTask] *)
Definition NewPowerTask (b : ServerHardware.t) : PowerTask :=
  {| Blade := Some b;
     State := P_UKNOWN;
     TaskStatus := false;
     CurrentTask := Some (Task.mk "" "" "" "" 0 "");
     Timeout := 36;
     WaitTime := 10 |}.

(* ================================================================== *)
(** ** Observable events *)

(** The two methods of [rest] that this file uses. *)
Inductive Method : Type := GET | PUT.

Inductive Level : Type := Debug | Info | Warn | Error.

(** The arguments handed to a log call, kept unrendered. *)
Inductive LogArg : Type :=
| ArgState (p : PowerState)
| ArgStr (s : string)
| ArgInt (z : Z)
| ArgErr (e : error)
| ArgBlade (b : ServerHardware.t)
| ArgTask (p : PowerTask)
| ArgBody (r : PowerRequest.t).

(** What a run does to the outside, in the order it does it. *)
Inductive Event : Type :=
| EvLookup (uri : string)
| EvRest (m : Method) (uri : string) (body : option PowerRequest.t)
| EvSleep (d : Z)
| EvLog (l : Level) (fmt : string) (args : list LogArg).

Definition is_put (e : Event) : bool :=
  match e with EvRest PUT _ _ => true | _ => false end.

Definition is_remote (e : Event) : bool :=
  match e with EvLookup _ | EvRest _ _ _ => true | _ => false end.

Definition is_sleep (e : Event) : bool :=
  match e with EvSleep _ => true | _ => false end.

Definition is_level (l : Level) (e : Event) : bool :=
  match e, l with
  | EvLog Debug _ _, Debug | EvLog Info _ _, Info
  | EvLog Warn _ _, Warn | EvLog Error _ _, Error => true
  | _, _ => false
  end.

(** The warning of line 195. *)
Definition timeout_fmt : string := "Power %s state timed out for %s.".

Definition is_timeout_warning (e : Event) : bool :=
  match e with
  | EvLog Warn fmt _ => (fmt =? timeout_fmt)%string
  | _ => false
  end.

(** The progress of the goroutine started by [go pt.SubmitPowerState(s)]:
    what it is about to do next. *)
Inductive SubmitPc : Type :=
| AtQuery
| AtCompare
| AtDecode (data : string)
| Finished.

Inductive Goroutine : Type :=
| NoGoroutine
| Submitting (s : PowerState) (pc : SubmitPc).

(** The outcome of running a piece of the program. *)
Inductive Res (A : Type) : Type :=
| Ok (a : A)
| Panic (msg : string)
| NoFuel.
Arguments Ok {A} a.
Arguments Panic {A} msg.
Arguments NoFuel {A}.

(* ================================================================== *)
(** ** The program, over an arbitrary remote system *)

(** The remote system and the collaborators of the package that are used
    but not defined in this file: the hardware lookup
    [Client.GetServerHardware], the transport [Client.RestAPICall], the
    decoder [json.Unmarshal] applied to [&pt.CurrentTask] (it receives the
    current handle, returns the new one and an optional error), and the
    comparison [T_COMPLETED.Equal] of the task vocabulary.  A lookup or a
    call answers with a value or with an error, and moves the remote
    system on. *)
Class Remote : Type := mkRemote
  { World : Type;
    GetServerHardware :
      string -> World -> (ServerHardware.t + error) * World;
    RestAPICall :
      Method -> string -> option PowerRequest.t -> World
      -> (string + error) * World;
    Unmarshal : string -> option Task.t -> option Task.t * option error;
    T_COMPLETED_Equal : string -> bool }.

Section PowerManagement.

Context {remote : Remote}.

(** The state a run threads: the power task that [pt] points to, the
    remote system, the events so far, and the goroutine with the
    interleaving chosen for it ([sched]: how many of its steps run at each
    of the coming scheduling points). *)
Record St : Type := mkSt
  { pt : PowerTask;
    world : World;
    trace : list Event;
    goroutine : Goroutine;
    sched : list nat }.

Definition with_pt (p : PowerTask) (st : St) : St :=
  mkSt p (world st) (trace st) (goroutine st) (sched st).
Definition with_world (w : World) (st : St) : St :=
  mkSt (pt st) w (trace st) (goroutine st) (sched st).
Definition with_trace (tr : list Event) (st : St) : St :=
  mkSt (pt st) (world st) tr (goroutine st) (sched st).
Definition with_goroutine (g : Goroutine) (st : St) : St :=
  mkSt (pt st) (world st) (trace st) g (sched st).
Definition with_sched (l : list nat) (st : St) : St :=
  mkSt (pt st) (world st) (trace st) (goroutine st) l.

(** *** A state monad with panics *)

Definition M (A : Type) : Type := St -> Res (A * St).

Definition ret {A} (a : A) : M A := fun st => Ok (a, st).

Definition bind {A B} (m : M A) (f : A -> M B) : M B :=
  fun st =>
    match m st with
    | Ok (a, st') => f a st'
    | Panic msg => Panic msg
    | NoFuel => NoFuel
    end.

Notation "x <- m ;; k" := (bind m (fun x => k))
  (at level 61, m at next level, right associativity).
Notation "m ;; k" := (bind m (fun _ => k))
  (at level 61, right associativity).

Definition panic {A} (msg : string) : M A := fun _ => Panic msg.

Definition out_of_fuel {A} : M A := fun _ => NoFuel.

(** A partial operation of the vocabulary, run: its failure is a panic. *)
Definition lift {A} (o : option A) : M A :=
  match o with
  | Some a => ret a
  | None => panic "index out of range"
  end.

Definition get_pt : M PowerTask := fun st => Ok (pt st, st).

Definition modify_pt (f : PowerTask -> PowerTask) : M unit :=
  fun st => Ok (tt, with_pt (f (pt st)) st).

Definition emit (e : Event) : M unit :=
  fun st => Ok (tt, with_trace (trace st ++ [e]) st).

Definition logf (l : Level) (fmt : string) (args : list LogArg) : M unit :=
  emit (EvLog l fmt args).

(** Reading through the two pointers of the task: nil panics. *)
Definition deref_Blade : M ServerHardware.t :=
  p <- get_pt ;;
  match Blade p with
  | Some b => ret b
  | None => panic "nil pointer dereference"
  end.

Definition deref_CurrentTask : M Task.t :=
  p <- get_pt ;;
  match CurrentTask p with
  | Some t => ret t
  | None => panic "nil pointer dereference"
  end.

Definition set_Blade (b : option ServerHardware.t) : M unit :=
  modify_pt (with_Blade b).
Definition set_State (s : PowerState) : M unit :=
  modify_pt (with_State s).
Definition set_TaskStatus (d : bool) : M unit :=
  modify_pt (with_TaskStatus d).
Definition set_CurrentTask (t : option Task.t) : M unit :=
  modify_pt (with_CurrentTask t).

(** The calls to the collaborators, each recorded in the trace. *)
Definition call_GetServerHardware (uri : string)
  : M (ServerHardware.t + error) :=
  fun st =>
    let (r, w) := GetServerHardware uri (world st) in
    Ok (r, with_world w (with_trace (trace st ++ [EvLookup uri]) st)).

Definition call_RestAPICall (m : Method) (uri : string)
           (body : option PowerRequest.t) : M (string + error) :=
  fun st =>
    let (r, w) := RestAPICall m uri body (world st) in
    Ok (r, with_world w (with_trace (trace st ++ [EvRest m uri body]) st)).

(** [json.Unmarshal([]byte(data), &pt.CurrentTask)] *)
Definition json_Unmarshal (data : string) : M (option error) :=
  fun st =>
    let (t, e) := Unmarshal data (CurrentTask (pt st)) in
    Ok (e, with_pt (with_CurrentTask t (pt st)) st).

(** [time.Sleep(d)], [d] in nanoseconds. *)
Definition Millisecond : Z := 1000000.

Definition sleep (d : Z) : M unit := emit (EvSleep d).

(** *** The power task *)

(** [func (pt *PowerTask) ResetTask()] *)
Definition ResetTask : M unit :=
  set_State P_UKNOWN ;;
  set_TaskStatus false ;;
  set_CurrentTask (Some (Task.mk "" "" "" "" 0 "")).

(** [func (pt *PowerTask) GetCurrentPowerState() error] *)
Definition GetCurrentPowerState : M (option error) :=
  b0 <- deref_Blade ;;
  if (ServerHardware.URI b0 =? "")%string then
    set_State P_UKNOWN ;;
    ret (Some "Can't get power on blade without hardware")
  else
    b0 <- deref_Blade ;;
    r <- call_GetServerHardware (ServerHardware.URI b0) ;;
    match r with
    | inr err => ret (Some err)
    | inl b =>
      logf Debug "GetCurrentPowerState() blade -> %+v" [ArgBlade b] ;;
      off <- lift (PowerState_Equal P_OFF (ServerHardware.PowerState b)) ;;
      (if off then set_State P_OFF
       else
         on <- lift (PowerState_Equal P_ON (ServerHardware.PowerState b)) ;;
         if on then set_State P_ON
         else
           logf Warn "Un-known power state detected %s, for %s."
                [ArgStr (ServerHardware.PowerState b);
                 ArgStr (ServerHardware.Name b)] ;;
           set_State P_UKNOWN) ;;
      set_Blade (Some b) ;;
      ret None
    end.

(** [func (pt *PowerTask) SubmitPowerState(s PowerState)] *)
Definition SubmitPowerState (s : PowerState) : M unit :=
  err <- GetCurrentPowerState ;;
  match err with
  | Some e => logf Error "Error getting current power state: %s" [ArgErr e]
  | None =>
    p <- get_pt ;;
    if negb (s =? State p) then
      b <- deref_Blade ;;
      logf Info "Powering %s server %s for %s."
           [ArgState s; ArgStr (ServerHardware.Name b);
            ArgStr (ServerHardware.SerialNumber b)] ;;
      ps <- lift (PowerState_String s) ;;
      pcs <- lift (PowerControl_String P_MOMPRESS) ;;
      let body := PowerRequest.mk ps pcs in
      b <- deref_Blade ;;
      let uri := String.concat "" [ServerHardware.URI b; "/powerState"] in
      logf Debug "REST : %s \n %+v\n" [ArgStr uri; ArgBody body] ;;
      p <- get_pt ;;
      logf Debug "pt -> %+v" [ArgTask p] ;;
      _ <- deref_Blade ;;
      r <- call_RestAPICall PUT uri (Some body) ;;
      match r with
      | inr e =>
        set_TaskStatus true ;;
        logf Error "Error with power state request: %s" [ArgErr e]
      | inl data =>
        logf Debug "SubmitPowerState %s" [ArgStr data] ;;
        e <- json_Unmarshal data ;;
        match e with
        | Some e =>
          set_TaskStatus true ;;
          logf Error "Error with power state un-marshal: %s" [ArgErr e]
        | None => ret tt
        end
      end
    else
      p <- get_pt ;;
      logf Info "Desired Power State already set -> %s" [ArgState (State p)] ;;
      set_TaskStatus true
  end.

(** [func (pt *PowerTask) GetCurrentTaskStatus() error] *)
Definition GetCurrentTaskStatus : M (option error) :=
  logf Debug "Working on getting current blade task status" [] ;;
  t <- deref_CurrentTask ;;
  let uri := Task.URI t in
  if negb (uri =? "")%string then
    _ <- deref_Blade ;;
    r <- call_RestAPICall GET uri None ;;
    match r with
    | inr err => ret (Some err)
    | inl data =>
      logf Debug "data: %s" [ArgStr data] ;;
      e <- json_Unmarshal data ;;
      match e with
      | Some err => ret (Some err)
      | None => ret None
      end
    end
  else
    logf Debug "Unable to get current task, no URI found" [] ;;
    ret None.

(** *** The goroutine

    [go pt.SubmitPowerState(s)] runs [SubmitPowerState] beside the polling
    loop, on the same [PowerTask].  It is cut at its two remote calls into
    three steps, each taken as atomic: the query of the current state
    (lines 115-118), the comparison with the change request (lines
    119-133 and 141-144), and the decoding of the answer (lines 135-140). *)
Definition submit_step (s : PowerState) (pc : SubmitPc) : M SubmitPc :=
  match pc with
  | AtQuery =>
    err <- GetCurrentPowerState ;;
    match err with
    | Some e =>
      logf Error "Error getting current power state: %s" [ArgErr e] ;;
      ret Finished
    | None => ret AtCompare
    end
  | AtCompare =>
    p <- get_pt ;;
    if negb (s =? State p) then
      b <- deref_Blade ;;
      logf Info "Powering %s server %s for %s."
           [ArgState s; ArgStr (ServerHardware.Name b);
            ArgStr (ServerHardware.SerialNumber b)] ;;
      ps <- lift (PowerState_String s) ;;
      pcs <- lift (PowerControl_String P_MOMPRESS) ;;
      let body := PowerRequest.mk ps pcs in
      b <- deref_Blade ;;
      let uri := String.concat "" [ServerHardware.URI b; "/powerState"] in
      logf Debug "REST : %s \n %+v\n" [ArgStr uri; ArgBody body] ;;
      p <- get_pt ;;
      logf Debug "pt -> %+v" [ArgTask p] ;;
      _ <- deref_Blade ;;
      r <- call_RestAPICall PUT uri (Some body) ;;
      match r with
      | inr e =>
        set_TaskStatus true ;;
        logf Error "Error with power state request: %s" [ArgErr e] ;;
        ret Finished
      | inl data =>
        logf Debug "SubmitPowerState %s" [ArgStr data] ;;
        ret (AtDecode data)
      end
    else
      p <- get_pt ;;
      logf Info "Desired Power State already set -> %s" [ArgState (State p)] ;;
      set_TaskStatus true ;;
      ret Finished
  | AtDecode data =>
    e <- json_Unmarshal data ;;
    match e with
    | Some e =>
      set_TaskStatus true ;;
      logf Error "Error with power state un-marshal: %s" [ArgErr e] ;;
      ret Finished
    | None => ret Finished
    end
  | Finished => ret Finished
  end.

(** The steps of [SubmitPowerState] run one after the other, without
    anything in between. *)
Fixpoint submit_run (n : nat) (s : PowerState) (pc : SubmitPc) : M SubmitPc :=
  match n with
  | O => ret pc
  | S n' => pc' <- submit_step s pc ;; submit_run n' s pc'
  end.

(** [go pt.SubmitPowerState(s)] *)
Definition go_SubmitPowerState (s : PowerState) : M unit :=
  fun st => Ok (tt, with_goroutine (Submitting s AtQuery) st).

(** Up to [n] steps of the goroutine. *)
Fixpoint run_goroutine (n : nat) : M unit :=
  match n with
  | O => ret tt
  | S n' =>
    fun st =>
      match goroutine st with
      | NoGoroutine | Submitting _ Finished => Ok (tt, st)
      | Submitting s pc =>
        (pc' <- submit_step s pc ;;
         (fun st' => Ok (tt, with_goroutine (Submitting s pc') st')) ;;
         run_goroutine n') st
      end
  end.

(** A scheduling point of the caller: the goroutine takes as many steps
    as the interleaving gives it here. *)
Definition yield : M unit :=
  fun st =>
    match sched st with
    | [] => Ok (tt, st)
    | n :: rest => run_goroutine n (with_sched rest st)
    end.

(** *** The executor *)

(** One pass through the body of the loop of [PowerExecutor], lines
    177-191: the error it returns with, if any.  The goroutine may run
    between the status query and the completion test. *)
Definition PowerExecutor_iteration (s : PowerState) : M (option error) :=
  err <- GetCurrentTaskStatus ;;
  match err with
  | Some e => ret (Some e)
  | None =>
    yield ;;
    t <- deref_CurrentTask ;;
    (if negb (Task.URI t =? "")%string
        && T_COMPLETED_Equal (Task.TaskState t)
     then set_TaskStatus true
     else ret tt) ;;
    t <- deref_CurrentTask ;;
    (if negb (Task.URI t =? "")%string then
       b <- deref_Blade ;;
       logf Debug "Waiting to set power state %s for blade %s, %s"
            [ArgState s; ArgStr (ServerHardware.Name b)] ;;
       t <- deref_CurrentTask ;;
       logf Info "Working on power state,%d%%, %s."
            [ArgInt (Task.ComputedPercentComplete t);
             ArgStr (Task.TaskStatus t)]
     else
       logf Info "Working on power state." []) ;;
    p <- get_pt ;;
    sleep (int_mul Millisecond (int_mul 1000 (WaitTime p))) ;;
    ret None
  end.

(** The loop of [PowerExecutor], lines 176-193, from the counter
    [currenttime]; it hands back the counter it stopped at, or the error
    it returns with.  The goroutine may run before each test of the loop
    condition. *)
Fixpoint PowerExecutor_loop (fuel : nat) (s : PowerState) (currenttime : Z)
  : M (Z + error) :=
  yield ;;
  p <- get_pt ;;
  if negb (TaskStatus p) && (currenttime <? Timeout p) then
    match fuel with
    | O => out_of_fuel
    | S fuel' =>
      err <- PowerExecutor_iteration s ;;
      match err with
      | Some e => ret (inr e)
      | None => PowerExecutor_loop fuel' s (int_add currenttime 1)
      end
    end
  else ret (inl currenttime).

(** [func (pt *PowerTask) PowerExecutor(s PowerState) error] *)
Definition PowerExecutor (fuel : nat) (s : PowerState) : M (option error) :=
  ResetTask ;;
  go_SubmitPowerState s ;;
  r <- PowerExecutor_loop fuel s 0 ;;
  match r with
  | inr err => ret (Some err)
  | inl currenttime =>
    p <- get_pt ;;
    (if negb (currenttime <? Timeout p) then
       b <- deref_Blade ;;
       logf Warn timeout_fmt [ArgState s; ArgStr (ServerHardware.Name b)]
     else ret tt) ;;
    logf Info "Power Task Execution Completed" [] ;;
    ret None
  end.

End PowerManagement.

(* ================================================================== *)
(** ** The classification, as the specification words it *)

(** "Classify it into exactly one of On/Off/Unknown via case-insensitive
    exact match; no match defaults to Unknown." *)
Definition spec_classify (reported : string) : PowerState :=
  if ci_equal reported "On" then P_ON
  else if ci_equal reported "Off" then P_OFF
  else P_UKNOWN.

(** The 256 characters, to check a property of characters on all of
    them. *)
Definition all_ascii : list ascii := map ascii_of_nat (seq 0 256).

(** The events a run has added to a trace. *)
Definition added (before after : list Event) (evs : list Event) : Prop :=
  after = (before ++ evs)%list.

(** The first line of [GetCurrentTaskStatus] marks the start of one pass
    through the loop of the executor. *)
Definition status_fmt : string := "Working on getting current blade task status".

Definition is_status_query (e : Event) : bool :=
  match e with
  | EvLog Debug fmt [] => (fmt =? status_fmt)%string
  | _ => false
  end.

(** The length of one sleep of the executor, in nanoseconds, for a given
    [WaitTime]. *)
Definition nap (waittime : Z) : Z := int_mul 1000000 (int_mul 1000 waittime).

(** From one state of a run to a later one: [Timeout] and [WaitTime] are
    the same, and the events added hold [n] starts of a status query and
    [k] sleeps, each of the length that [WaitTime] gives. *)
Definition progress {remote : Remote} (n k : nat) (st st' : St) : Prop :=
  Timeout (pt st') = Timeout (pt st)
  /\ WaitTime (pt st') = WaitTime (pt st)
  /\ exists evs,
      added (trace st) (trace st') evs
      /\ List.length (filter is_status_query evs) = n
      /\ filter is_sleep evs = repeat (EvSleep (nap (WaitTime (pt st)))) k.

(** A run from [st] does not run out of fuel, and when it returns, what it
    returns and the state it leaves satisfy [Q]. *)
Definition post {remote : Remote} {A : Type} (m : M A) (st : St)
           (Q : A -> St -> Prop) : Prop :=
  match m st with
  | Ok (a, st') => Q a st'
  | Panic _ => True
  | NoFuel => False
  end.

(** What [GetCurrentPowerState] adds to the trace when the lookup of the
    unit at [uri] answers with the blade [b]. *)
Definition unknown_fmt : string := "Un-known power state detected %s, for %s.".

Definition lookup_events (uri : string) (b : ServerHardware.t) : list Event :=
  [EvLookup uri; EvLog Debug "GetCurrentPowerState() blade -> %+v" [ArgBlade b]]
  ++ (if ci_equal (ServerHardware.PowerState b) "On"
         || ci_equal (ServerHardware.PowerState b) "Off"
      then []
      else [EvLog Warn unknown_fmt
                  [ArgStr (ServerHardware.PowerState b);
                   ArgStr (ServerHardware.Name b)]]).

(* ================================================================== *)
(** ** A small remote system to run the program against *)

Module Demo.

Definition blade (power : string) : ServerHardware.t :=
  ServerHardware.mk "/rest/server-hardware/1" "Encl1, bay 1" "CN7515049L" power.

Definition no_blade : ServerHardware.t := ServerHardware.mk "" "" "" "".

Definition running : Task.t :=
  Task.mk "/rest/tasks/7" "Power off" "Administrator" "Running" 50 "Powering off".

Definition completed : Task.t :=
  Task.mk "/rest/tasks/7" "Power off" "Administrator" "Completed" 100 "Power off done".

(** A decoder that knows two payloads and rejects the rest. *)
Definition decode (data : string) (cur : option Task.t)
  : option Task.t * option error :=
  if (data =? "task:running")%string then (Some running, None)
  else if (data =? "task:completed")%string then (Some completed, None)
  else (cur, Some "invalid character").

(** The unit answers a lookup with [hw], a PUT with [put], a GET with
    [get]; the world counts the calls. *)
Definition system (hw : ServerHardware.t + error) (put get : string + error)
  : Remote :=
  {| World := nat;
     GetServerHardware := fun _ w => (hw, S w);
     RestAPICall := fun m _ _ w =>
                      (match m with PUT => put | GET => get end, S w);
     Unmarshal := decode;
     T_COMPLETED_Equal := fun s => (ToUpper s =? ToUpper "Completed")%string |}.

Definition start (remote : Remote) (w : World) (p : PowerTask)
           (l : list nat) : St :=
  mkSt p w [] NoGoroutine l.

(** A unit that is on; the change is accepted as a task that a later
    poll finds completed. *)
Definition unit_on : Remote :=
  system (inl (blade "On")) (inl "task:running") (inl "task:completed").

(** A unit that reports a state outside the vocabulary. *)
Definition unit_standby : Remote :=
  system (inl (blade "Standby")) (inl "task:running") (inl "task:completed").

(** A unit that is on and whose transport refuses the change. *)
Definition put_refused : Remote :=
  system (inl (blade "On")) (inr "connection refused") (inl "task:running").

(** A unit that is on and answers the change with something that does not
    decode. *)
Definition put_garbled : Remote :=
  system (inl (blade "On")) (inl "<html>") (inl "task:running").

(** A task for the unit, as [NewPowerTask] makes it, with a chosen
    [Timeout]. *)
Definition task (timeout : Z) : PowerTask :=
  mkPowerTask (Some (blade "")) P_UKNOWN false
              (Some (Task.mk "" "" "" "" 0 "")) timeout 10.

(** A task whose unit has no URI. *)
Definition orphan : PowerTask := NewPowerTask no_blade.

End Demo.

(** ** The trace of an executor that is left alone *)

(** What one pass of the loop of [PowerExecutor] adds to the trace while
    the task handle has no URI: the two debug lines of
    [GetCurrentTaskStatus], the progress line and the sleep. *)
Definition idle_pass (waittime : Z) : list Event :=
  [EvLog Debug status_fmt [];
   EvLog Debug "Unable to get current task, no URI found" [];
   EvLog Info "Working on power state." [];
   EvSleep (nap waittime)].

Fixpoint idle_passes (waittime : Z) (n : nat) : list Event :=
  match n with
  | O => []
  | S n' => idle_pass waittime ++ idle_passes waittime n'
  end.

(** The two lines that [PowerExecutor] writes after its loop. *)
Definition closing_fmt : string := "Power Task Execution Completed".

Definition is_closing (e : Event) : bool :=
  match e with
  | EvLog Info fmt [] => (fmt =? closing_fmt)%string
  | _ => false
  end.

(** The line of [SubmitPowerState] for a target that is already there. *)
Definition already_set (s : PowerState) : Event :=
  EvLog Info "Desired Power State already set -> %s" [ArgState s].

(** The states of the vocabulary, as ordinals. *)
Definition valid_state (p : PowerState) : Prop := 1 <= p <= 3.

(** ** Two more remote systems to run the program against *)

Module Scenario.

(** The lookup of the unit does not get through. *)
Definition unreachable : Remote :=
  Demo.system (inr "no route to host") (inl "task:running")
              (inl "task:completed").

(** The unit is on and accepts the change; polling the task fails. *)
Definition poll_fails : Remote :=
  Demo.system (inl (Demo.blade "On")) (inl "task:running")
              (inr "i/o timeout").

(** A task of a previous attempt: done, with the handle of that attempt. *)
Definition stale : PowerTask :=
  mkPowerTask (Some (Demo.blade "")) P_ON true (Some Demo.completed) 36 10.

(** A task with a handle to poll. *)
Definition polling : PowerTask :=
  with_CurrentTask (Some Demo.running) (Demo.task 36).

End Scenario.

(* ================================================================== *)
(** * Properties *)

(** ** The vocabulary *)

Lemma wrap_int_small (z : Z) : int_range z -> wrap_int z = z.
Proof.
  unfold int_range, int_min, int_max, wrap_int. intros H.
  rewrite Z.mod_small; lia.
Qed.

Lemma int_sub_1 (p : Z) :
  int_range p ->
  (p = int_min /\ int_sub p 1 = int_max)
  \/ (int_min < p /\ int_sub p 1 = p - 1).
Proof.
  intros H. destruct (Z.eq_dec p int_min) as [-> | Hne].
  - left. split; [reflexivity | vm_compute; reflexivity].
  - right. unfold int_range in H. split; [lia |].
    unfold int_sub. apply wrap_int_small. unfold int_range. lia.
Qed.

Lemma index_array_3 (a b c : string) (i : Z) :
  index_array [a; b; c] i =
  if i =? 0 then Some a else if i =? 1 then Some b
  else if i =? 2 then Some c else None.
Proof.
  unfold index_array. simpl List.length.
  destruct (Z.eqb_spec i 0) as [-> | H0]; [reflexivity |].
  destruct (Z.eqb_spec i 1) as [-> | H1]; [reflexivity |].
  destruct (Z.eqb_spec i 2) as [-> | H2]; [reflexivity |].
  destruct (Z.leb_spec 0 i); [| reflexivity].
  destruct (Z.ltb_spec i (Z.of_nat 3)); [lia | reflexivity].
Qed.

Lemma table_lookup (a b c : string) (p : Z) :
  int_range p ->
  index_array [a; b; c] (int_sub p 1) =
  if p =? 1 then Some a else if p =? 2 then Some b
  else if p =? 3 then Some c else None.
Proof.
  intros H. rewrite index_array_3.
  destruct (int_sub_1 p H) as [[-> ->] | [Hlt ->]].
  - reflexivity.
  - destruct (Z.eqb_spec (p - 1) 0), (Z.eqb_spec p 1); try lia; try reflexivity.
    destruct (Z.eqb_spec (p - 1) 1), (Z.eqb_spec p 2); try lia; try reflexivity.
    destruct (Z.eqb_spec (p - 1) 2), (Z.eqb_spec p 3); try lia; reflexivity.
Qed.

(** C10.  [String()] of a power state and of a power control is a lookup in
    a table of three strings at the ordinal minus one: it yields the
    string of the constant for the ordinals 1, 2 and 3, and for every other
    value of the integer type (0 and 4 among them) the index is out of
    range and the call fails instead of returning a string. *)
Theorem String_defined_on_constants_only (p : Z) :
  int_range p ->
  (1 <= p <= 3 ->
   PowerState_String p = nth_error powerstates (Z.to_nat (p - 1))
   /\ PowerControl_String p = nth_error powercontrols (Z.to_nat (p - 1))
   /\ PowerState_String p <> None /\ PowerControl_String p <> None)
  /\ (~ 1 <= p <= 3 ->
      PowerState_String p = None /\ PowerControl_String p = None)
  /\ PowerState_String P_ON = Some "On"
  /\ PowerState_String P_OFF = Some "Off"
  /\ PowerState_String P_UKNOWN = Some "UNKNOWN"
  /\ PowerControl_String P_COLDBOOT = Some "ColdBoot"
  /\ PowerControl_String P_MOMPRESS = Some "MomentaryPress"
  /\ PowerControl_String P_RESET = Some "Reset"
  /\ PowerState_String 0 = None /\ PowerState_String 4 = None
  /\ PowerControl_String 0 = None /\ PowerControl_String 4 = None.
Proof.
  intros H. unfold PowerState_String, PowerControl_String, powerstates,
            powercontrols.
  rewrite !table_lookup by exact H.
  split; [| split].
  - intros Hp. assert (Hc : p = 1 \/ p = 2 \/ p = 3) by lia.
    destruct Hc as [-> | [-> | ->]]; cbn; repeat split; discriminate.
  - intros Hp.
    destruct (Z.eqb_spec p 1); [lia |].
    destruct (Z.eqb_spec p 2); [lia |].
    destruct (Z.eqb_spec p 3); [lia |]. split; reflexivity.
  - repeat split; vm_compute; reflexivity.
Qed.

Lemma String_defined_on_constants_only_witness :
  int_range 4 /\ PowerState_String 4 = None /\ PowerControl_String 4 = None.
Proof.
  assert (H : int_range 4) by (unfold int_range, int_min, int_max; lia).
  split; [exact H |].
  destruct (String_defined_on_constants_only 4 H) as [_ [Hn _]].
  apply Hn. lia.
Defined.

(** Every character is among the 256 codes. *)
Lemma in_all_ascii (a : ascii) : In a all_ascii.
Proof.
  unfold all_ascii. rewrite <- (ascii_nat_embedding a).
  apply in_map, in_seq. pose proof (nat_ascii_bounded a). lia.
Qed.

Lemma for_all_chars (P : ascii -> ascii -> bool) :
  forallb (fun a => forallb (P a) all_ascii) all_ascii = true ->
  forall a b, P a b = true.
Proof.
  intros H a b. rewrite forallb_forall in H.
  specialize (H a (in_all_ascii a)). rewrite forallb_forall in H.
  exact (H b (in_all_ascii b)).
Qed.

Lemma upper_char_ci (a b : ascii) :
  (upper_char a =? upper_char b)%char = ci_char a b.
Proof.
  apply Bool.eqb_prop.
  revert a b. apply for_all_chars. vm_compute. reflexivity.
Qed.

(** Comparing the upper-cased strings is the character-wise comparison up
    to case. *)
Lemma ToUpper_ci_equal (s t : string) :
  (ToUpper s =? ToUpper t)%string = ci_equal s t.
Proof.
  revert t. induction s as [| a s IH]; intros [| b t]; simpl;
    try reflexivity.
  rewrite upper_char_ci, IH. destruct (ci_char a b); reflexivity.
Qed.

Lemma PowerState_Equal_ON (s : string) :
  PowerState_Equal P_ON s = Some (ci_equal s "On").
Proof.
  rewrite <- ToUpper_ci_equal. reflexivity.
Qed.

Lemma PowerState_Equal_OFF (s : string) :
  PowerState_Equal P_OFF s = Some (ci_equal s "Off").
Proof.
  rewrite <- ToUpper_ci_equal. reflexivity.
Qed.

(** No string is both an "On" and an "Off": the order of the two tests in
    [GetCurrentPowerState] does not matter. *)
Lemma on_off_exclusive (s : string) :
  ci_equal s "On" = true -> ci_equal s "Off" = true -> False.
Proof.
  destruct s as [| a [| b [| c s]]]; simpl; intros H1 H2;
    repeat match goal with
           | H : _ && _ = true |- _ => apply andb_true_iff in H; destruct H
           end;
    discriminate.
Qed.

(* ================================================================== *)
(** ** The power task *)

Ltac unfold_ops :=
  cbv beta iota delta
      [bind ret lift panic deref_Blade deref_CurrentTask get_pt
       set_Blade set_State set_TaskStatus set_CurrentTask modify_pt
       logf sleep emit call_GetServerHardware call_RestAPICall
       json_Unmarshal added] in *.

Ltac open_state st :=
  let p := fresh "p" in
  destruct st as [p ? ? ? ?]; destruct p; cbn in *; subst.

Section Properties.

Context {remote : Remote}.

(** C7.  Whatever the task held before, [ResetTask] leaves it with the
    observed state Unknown, the done flag false and an empty task handle
    (URI, name and owner all empty), and with the blade, [Timeout] and
    [WaitTime] it had; it calls nothing and logs nothing. *)
Theorem ResetTask_clears (st : St) :
  exists st',
    ResetTask st = Ok (tt, st')
    /\ State (pt st') = P_UKNOWN
    /\ TaskStatus (pt st') = false
    /\ CurrentTask (pt st') = Some Task.empty
    /\ (forall t, CurrentTask (pt st') = Some t ->
                  Task.URI t = "" /\ Task.Name t = "" /\ Task.Owner t = "")
    /\ Blade (pt st') = Blade (pt st)
    /\ Timeout (pt st') = Timeout (pt st)
    /\ WaitTime (pt st') = WaitTime (pt st)
    /\ world st' = world st
    /\ trace st' = trace st.
Proof.
  unfold ResetTask. unfold_ops. eexists. split; [reflexivity |].
  cbn. repeat split; try reflexivity;
    match goal with H : Some _ = Some _ |- _ => injection H as <- end;
    reflexivity.
Qed.

Lemma GetCurrentPowerState_no_hardware (st : St) (b : ServerHardware.t) :
  Blade (pt st) = Some b ->
  ServerHardware.URI b = "" ->
  exists st',
    GetCurrentPowerState st
    = Ok (Some "Can't get power on blade without hardware", st').
Proof.
  intros Hb Huri. unfold GetCurrentPowerState. unfold_ops.
  rewrite Hb, Huri. cbn. eexists. reflexivity.
Qed.

(** C8.  On a task whose hardware unit has an empty URI,
    [GetCurrentPowerState] returns the error "Can't get power on blade
    without hardware"; on the way it has set the observed state to
    Unknown and nothing else, and it has made no remote call: the remote
    system and the trace are as before. *)
Theorem GetCurrentPowerState_missing_hardware
        (st : St) (b : ServerHardware.t) :
  Blade (pt st) = Some b ->
  ServerHardware.URI b = "" ->
  exists st',
    GetCurrentPowerState st
    = Ok (Some "Can't get power on blade without hardware", st')
    /\ State (pt st') = P_UKNOWN
    /\ pt st' = with_State P_UKNOWN (pt st)
    /\ world st' = world st
    /\ trace st' = trace st.
Proof.
  intros Hb Huri. unfold GetCurrentPowerState. unfold_ops.
  rewrite Hb, Huri. cbn. eexists. split; [reflexivity |].
  repeat split.
Qed.

(** C9.  With a current task handle whose URI is empty,
    [GetCurrentTaskStatus] returns no error and changes neither the task
    nor the remote system, and what it adds to the trace is two debug
    lines, no call.  With a non-empty URI (and a blade to call through) it
    issues one GET on that URI, with no body; an error of the transport
    is returned as it is, the task untouched; otherwise the answer is
    decoded into the handle and the error of the decoder, if any, is
    returned. *)
Theorem GetCurrentTaskStatus_polls_handle (st : St) (t : Task.t) :
  CurrentTask (pt st) = Some t ->
  (Task.URI t = "" ->
   exists st' evs,
     GetCurrentTaskStatus st = Ok (None, st')
     /\ pt st' = pt st
     /\ world st' = world st
     /\ added (trace st) (trace st') evs
     /\ filter is_remote evs = [])
  /\ (Task.URI t <> "" ->
      forall b, Blade (pt st) = Some b ->
      forall r w, RestAPICall GET (Task.URI t) None (world st) = (r, w) ->
      exists st' evs,
        GetCurrentTaskStatus st
        = Ok (match r with
              | inr err => Some err
              | inl data => snd (Unmarshal data (Some t))
              end, st')
        /\ pt st' = match r with
                    | inr _ => pt st
                    | inl data =>
                      with_CurrentTask (fst (Unmarshal data (Some t))) (pt st)
                    end
        /\ world st' = w
        /\ added (trace st) (trace st') evs
        /\ filter is_remote evs = [EvRest GET (Task.URI t) None]).
Proof.
  intros Ht. open_state st. split.
  - intros Huri. unfold GetCurrentTaskStatus. unfold_ops. cbn.
    rewrite Huri. cbn. do 2 eexists. split; [reflexivity |].
    cbn. rewrite <- app_assoc. repeat split.
  - intros Huri b Hb r w Hr. subst. apply String.eqb_neq in Huri.
    unfold GetCurrentTaskStatus. unfold_ops. cbn.
    rewrite Huri. cbn. rewrite Hr.
    destruct r as [data | err]; cbn.
    + destruct (Unmarshal data (Some t)) as [t' e]; cbn.
      destruct e; do 2 eexists; (split; [reflexivity |]); cbn;
        rewrite <- !app_assoc; repeat split.
    + do 2 eexists. split; [reflexivity |]. cbn.
      rewrite <- !app_assoc. repeat split.
Qed.

(** *** Querying the current power state *)

Local Arguments PowerState_Equal : simpl never.

Lemma GetCurrentPowerState_found (st : St) (b b' : ServerHardware.t)
      (w' : World) :
  Blade (pt st) = Some b ->
  ServerHardware.URI b <> "" ->
  GetServerHardware (ServerHardware.URI b) (world st) = (inl b', w') ->
  GetCurrentPowerState st
  = Ok (None,
        mkSt (with_Blade (Some b')
                (with_State (spec_classify (ServerHardware.PowerState b'))
                            (pt st)))
             w'
             (trace st ++ lookup_events (ServerHardware.URI b) b')
             (goroutine st) (sched st)).
Proof.
  intros Hb Huri Hw. open_state st. apply String.eqb_neq in Huri.
  unfold GetCurrentPowerState, lookup_events, spec_classify. unfold_ops.
  cbn. rewrite Huri. cbn. rewrite Hw. cbn.
  rewrite PowerState_Equal_OFF. cbn.
  destruct (ci_equal (ServerHardware.PowerState b') "Off") eqn:Hoff; cbn.
  - destruct (ci_equal (ServerHardware.PowerState b') "On") eqn:Hon.
    + destruct (on_off_exclusive _ Hon Hoff).
    + cbn. rewrite <- !app_assoc. reflexivity.
  - rewrite PowerState_Equal_ON. cbn.
    destruct (ci_equal (ServerHardware.PowerState b') "On") eqn:Hon; cbn;
      rewrite <- !app_assoc; reflexivity.
Qed.

(** The only way for the query to succeed. *)
Lemma GetCurrentPowerState_ok (st st1 : St) :
  GetCurrentPowerState st = Ok (None, st1) ->
  exists b b' w',
    Blade (pt st) = Some b
    /\ ServerHardware.URI b <> ""
    /\ GetServerHardware (ServerHardware.URI b) (world st) = (inl b', w')
    /\ st1 = mkSt (with_Blade (Some b')
                    (with_State (spec_classify (ServerHardware.PowerState b'))
                                (pt st)))
                 w'
                 (trace st ++ lookup_events (ServerHardware.URI b) b')
                 (goroutine st) (sched st).
Proof.
  intros H. destruct (Blade (pt st)) as [b |] eqn:Hb.
  - destruct (String.eqb_spec (ServerHardware.URI b) "") as [Huri | Huri].
    + destruct (GetCurrentPowerState_no_hardware st b Hb Huri) as [st' H'].
      congruence.
    + destruct (GetServerHardware (ServerHardware.URI b) (world st))
        as [[b' | err] w'] eqn:Hw.
      * rewrite (GetCurrentPowerState_found st b b' w' Hb Huri Hw) in H.
        injection H as <-. exists b, b', w'. repeat split; assumption.
      * exfalso. revert H. open_state st. apply String.eqb_neq in Huri.
        unfold GetCurrentPowerState. unfold_ops. cbn. rewrite Huri. cbn.
        rewrite Hw. cbn. discriminate.
  - exfalso. revert H. open_state st.
    unfold GetCurrentPowerState. unfold_ops. cbn. discriminate.
Qed.

(** C5.  Whatever string the remote system reports as the power state of
    the unit, [GetCurrentPowerState] returns without error and without
    failing, and the observed state is the one the string is classified
    into by case-insensitive exact match, one of On, Off and Unknown: a
    string that is neither an "On" nor an "Off" up to case gives Unknown
    and one warning in the log; any other gives no warning; no error is
    logged in either case. *)
Theorem GetCurrentPowerState_classifies
        (st : St) (b b' : ServerHardware.t) (w' : World) :
  Blade (pt st) = Some b ->
  ServerHardware.URI b <> "" ->
  GetServerHardware (ServerHardware.URI b) (world st) = (inl b', w') ->
  let reported := ServerHardware.PowerState b' in
  exists st' evs,
    GetCurrentPowerState st = Ok (None, st')
    /\ added (trace st) (trace st') evs
    /\ State (pt st') = spec_classify reported
    /\ (State (pt st') = P_ON \/ State (pt st') = P_OFF
        \/ State (pt st') = P_UKNOWN)
    /\ (ci_equal reported "On" = true -> State (pt st') = P_ON)
    /\ (ci_equal reported "Off" = true -> State (pt st') = P_OFF)
    /\ (ci_equal reported "On" = false -> ci_equal reported "Off" = false ->
        State (pt st') = P_UKNOWN
        /\ filter (is_level Warn) evs
           = [EvLog Warn unknown_fmt
                    [ArgStr reported; ArgStr (ServerHardware.Name b')]])
    /\ (State (pt st') <> P_UKNOWN -> filter (is_level Warn) evs = [])
    /\ filter (is_level Error) evs = [].
Proof.
  intros Hb Huri Hw reported.
  exists (mkSt (with_Blade (Some b')
                  (with_State (spec_classify reported) (pt st)))
               w' (trace st ++ lookup_events (ServerHardware.URI b) b')
               (goroutine st) (sched st)),
         (lookup_events (ServerHardware.URI b) b').
  split; [apply GetCurrentPowerState_found; assumption |].
  split; [reflexivity |]. cbn.
  unfold spec_classify, lookup_events. fold reported.
  destruct (ci_equal reported "On") eqn:Hon;
    destruct (ci_equal reported "Off") eqn:Hoff; cbn;
    try (destruct (on_off_exclusive _ Hon Hoff));
    repeat split; try reflexivity; try discriminate; try congruence; auto.
Qed.

(** *** Submitting the desired power state *)

Local Arguments lookup_events : simpl never.
Local Arguments PowerState_String : simpl never.
Local Arguments PowerControl_String : simpl never.

Lemma MOMPRESS_String :
  PowerControl_String P_MOMPRESS = Some "MomentaryPress".
Proof. reflexivity. Qed.

Lemma lookup_events_no_rest (uri : string) (b : ServerHardware.t)
      (m : Method) (u : string) (body : option PowerRequest.t) :
  ~ In (EvRest m u body) (lookup_events uri b).
Proof.
  unfold lookup_events.
  destruct (ci_equal _ "On" || ci_equal _ "Off"); cbn;
    intros H; repeat (destruct H as [H | H]; try discriminate); exact H.
Qed.

Lemma lookup_events_no_put (uri : string) (b : ServerHardware.t) :
  filter is_put (lookup_events uri b) = [].
Proof.
  unfold lookup_events.
  destruct (ci_equal _ "On" || ci_equal _ "Off"); reflexivity.
Qed.

Lemma lookup_events_no_error (uri : string) (b : ServerHardware.t) :
  filter (is_level Error) (lookup_events uri b) = [].
Proof.
  unfold lookup_events.
  destruct (ci_equal _ "On" || ci_equal _ "Off"); reflexivity.
Qed.

(** [SubmitPowerState] once its query has succeeded. *)
Ltac after_query H :=
  let b0 := fresh "b0" in
  let b1 := fresh "b1" in
  let w1 := fresh "w1" in
  let Hb0 := fresh "Hb0" in
  let Hst1 := fresh "Hst1" in
  destruct (GetCurrentPowerState_ok _ _ H)
    as (b0 & b1 & w1 & Hb0 & _ & _ & Hst1);
  unfold SubmitPowerState; cbv beta iota delta [bind]; rewrite H;
  subst.

(** C1.  When the state that [SubmitPowerState] has just observed is the
    requested one, it makes no call to the transport at all (no PUT in
    particular), sets the done flag, and leaves the task handle as it
    was, so empty when it was empty; the remote system is as the lookup
    left it. *)
Theorem SubmitPowerState_already_set (s : PowerState) (st st1 : St) :
  GetCurrentPowerState st = Ok (None, st1) ->
  State (pt st1) = s ->
  exists st' evs,
    SubmitPowerState s st = Ok (tt, st')
    /\ added (trace st) (trace st') evs
    /\ filter is_put evs = []
    /\ (forall m uri body, ~ In (EvRest m uri body) evs)
    /\ TaskStatus (pt st') = true
    /\ CurrentTask (pt st') = CurrentTask (pt st)
    /\ (CurrentTask (pt st) = Some Task.empty ->
        CurrentTask (pt st') = Some Task.empty)
    /\ world st' = world st1.
Proof.
  intros H Hs. after_query H. unfold_ops. cbn.
  rewrite Z.eqb_refl. cbn. do 2 eexists. split; [reflexivity |].
  cbn. split; [rewrite <- app_assoc; reflexivity |].
  split; [rewrite filter_app, lookup_events_no_put; reflexivity |].
  split.
  - intros m uri body Hin. apply in_app_or in Hin as [Hin | Hin].
    + exact (lookup_events_no_rest _ _ _ _ _ Hin).
    + destruct Hin as [Hin | []]. discriminate.
  - repeat split. intros Ht. exact Ht.
Qed.

(** C6.  When the state just observed differs from the requested one (a
    state that has a string), [SubmitPowerState] issues one PUT and no
    other, whatever the answer to it: to the URI of the unit followed by
    "/powerState", with the string of the target as [powerState] and
    "MomentaryPress" as [powerControl]. *)
Theorem SubmitPowerState_one_change_request
        (s : PowerState) (ps : string) (st st1 : St) (b : ServerHardware.t) :
  GetCurrentPowerState st = Ok (None, st1) ->
  Blade (pt st1) = Some b ->
  s <> State (pt st1) ->
  PowerState_String s = Some ps ->
  exists st' evs,
    SubmitPowerState s st = Ok (tt, st')
    /\ added (trace st) (trace st') evs
    /\ filter is_put evs
       = [EvRest PUT (ServerHardware.URI b ++ "/powerState")
                 (Some (PowerRequest.mk ps "MomentaryPress"))].
Proof.
  intros H Hb Hs Hps. after_query H. cbn in Hb, Hs. injection Hb as ->.
  apply Z.eqb_neq in Hs. unfold_ops. cbn. rewrite Hs, Hps, MOMPRESS_String. cbn.
  match goal with
  | |- context [RestAPICall PUT ?u ?bd ?w0] =>
    destruct (RestAPICall PUT u bd w0) as [[data | err] w]; cbn
  end.
  - match goal with
    | |- context [Unmarshal data ?c] =>
      destruct (Unmarshal data c) as [t' [err |]]; cbn
    end;
      do 2 eexists; (split; [reflexivity |]); cbn;
      (split; [rewrite <- !app_assoc; reflexivity |]);
      rewrite filter_app, lookup_events_no_put; reflexivity.
  - do 2 eexists. split; [reflexivity |]. cbn.
    split; [rewrite <- !app_assoc; reflexivity |].
    rewrite filter_app, lookup_events_no_put. reflexivity.
Qed.

(** C4.  When the PUT fails in the transport, and when its answer fails
    to decode, [SubmitPowerState] returns normally (it has no error
    result to hand the failure back in), with the done flag set and the
    error written to the log at the error level. *)
Theorem SubmitPowerState_swallows_failures
        (s : PowerState) (ps : string) (st st1 : St) (b : ServerHardware.t) :
  GetCurrentPowerState st = Ok (None, st1) ->
  Blade (pt st1) = Some b ->
  s <> State (pt st1) ->
  PowerState_String s = Some ps ->
  let uri := ServerHardware.URI b ++ "/powerState" in
  let body := Some (PowerRequest.mk ps "MomentaryPress") in
  (forall err w,
      RestAPICall PUT uri body (world st1) = (inr err, w) ->
      exists st' evs,
        SubmitPowerState s st = Ok (tt, st')
        /\ TaskStatus (pt st') = true
        /\ CurrentTask (pt st') = CurrentTask (pt st)
        /\ added (trace st) (trace st') evs
        /\ filter (is_level Error) evs
           = [EvLog Error "Error with power state request: %s" [ArgErr err]])
  /\ (forall data w t' err,
         RestAPICall PUT uri body (world st1) = (inl data, w) ->
         Unmarshal data (CurrentTask (pt st1)) = (t', Some err) ->
         exists st' evs,
           SubmitPowerState s st = Ok (tt, st')
           /\ TaskStatus (pt st') = true
           /\ added (trace st) (trace st') evs
           /\ filter (is_level Error) evs
              = [EvLog Error "Error with power state un-marshal: %s"
                       [ArgErr err]]).
Proof.
  intros H Hb Hs Hps uri body. subst uri body.
  apply Z.eqb_neq in Hs. split.
  - intros err w Hw. after_query H. cbn in Hb, Hs, Hw. injection Hb as ->.
    unfold_ops. cbn. rewrite Hs, Hps, MOMPRESS_String. cbn.
    rewrite Hw. cbn.
    do 2 eexists. split; [reflexivity |]. cbn.
    split; [reflexivity |]. split; [reflexivity |].
    split; [rewrite <- !app_assoc; reflexivity |].
    rewrite filter_app, lookup_events_no_error. reflexivity.
  - intros data w t' err Hw Hu. after_query H.
    cbn in Hb, Hs, Hw, Hu. injection Hb as ->.
    unfold_ops. cbn. rewrite Hs, Hps, MOMPRESS_String. cbn.
    rewrite Hw. cbn. rewrite Hu. cbn.
    do 2 eexists. split; [reflexivity |]. cbn.
    split; [reflexivity |].
    split; [rewrite <- !app_assoc; reflexivity |].
    rewrite filter_app, lookup_events_no_error. reflexivity.
Qed.

(** *** The executor *)

Lemma post_bind {A B} (m : M A) (f : A -> M B) (st : St)
      (Q : B -> St -> Prop) :
  post m st (fun a st1 => post (f a) st1 Q) -> post (bind m f) st Q.
Proof.
  unfold post, bind. destruct (m st) as [[a st1] | msg |]; auto.
Qed.

Lemma post_conseq {A} (m : M A) (st : St) (Q Q' : A -> St -> Prop) :
  post m st Q -> (forall a st', Q a st' -> Q' a st') -> post m st Q'.
Proof.
  unfold post. destruct (m st) as [[a st1] | msg |]; auto.
Qed.

Lemma progress_refl (st : St) : progress 0 0 st st.
Proof.
  repeat split. exists []. unfold added. rewrite app_nil_r.
  repeat split.
Qed.

Lemma progress_trans (n k n' k' : nat) (st st1 st2 : St) :
  progress n k st st1 -> progress n' k' st1 st2 ->
  progress (n + n') (k + k') st st2.
Proof.
  intros (HT & HW & evs & Hadd & Hn & Hk)
         (HT' & HW' & evs' & Hadd' & Hn' & Hk').
  unfold added in *. split; [congruence |]. split; [congruence |].
  exists (evs ++ evs')%list. split.
  - rewrite Hadd', Hadd, <- app_assoc. reflexivity.
  - rewrite !filter_app, length_app, Hn, Hn', Hk, Hk', HW, repeat_app.
    split; reflexivity.
Qed.

(** Closing a goal [progress n k st st'] between two explicit states. *)
Ltac show_progress :=
  unfold progress, added; cbn;
  split; [reflexivity |]; split; [reflexivity |];
  first
    [ exists []; split;
      [rewrite app_nil_r; reflexivity | cbn; split; reflexivity]
    | eexists; split; [rewrite <- ?app_assoc; reflexivity |];
      cbn; split; reflexivity ].

(** Case analysis on the innermost thing a goal branches on. *)
Ltac destruct_inner t :=
  lazymatch t with
  | context [match ?y with _ => _ end] => destruct_inner y
  | _ => destruct t eqn:?
  end.

Ltac crunch :=
  repeat (cbn;
          match goal with
          | |- context [match ?x with _ => _ end] => destruct_inner x
          end).

Lemma GetCurrentPowerState_quiet (st : St) :
  post GetCurrentPowerState st (fun _ st' => progress 0 0 st st').
Proof.
  open_state st. unfold post, GetCurrentPowerState. unfold_ops.
  crunch; try exact I; try show_progress.
Qed.

Lemma GetCurrentTaskStatus_progress (st : St) :
  post GetCurrentTaskStatus st (fun _ st' => progress 1 0 st st').
Proof.
  open_state st. unfold post, GetCurrentTaskStatus. unfold_ops.
  crunch; try exact I; try show_progress.
Qed.

Lemma submit_step_quiet (s : PowerState) (pc : SubmitPc) (st : St) :
  post (submit_step s pc) st (fun _ st' => progress 0 0 st st').
Proof.
  destruct pc as [| | data |].
  - unfold submit_step. apply post_bind.
    eapply post_conseq; [apply GetCurrentPowerState_quiet |].
    intros [e |] st1 H1; open_state st1; unfold post; unfold_ops; cbn.
    + eapply (progress_trans 0 0 0 0); [exact H1 | show_progress].
    + exact H1.
  - open_state st. unfold post, submit_step. unfold_ops.
    crunch; try exact I; try show_progress.
  - open_state st. unfold post, submit_step. unfold_ops.
    crunch; try exact I; try show_progress.
  - apply progress_refl.
Qed.

Lemma run_goroutine_quiet (n : nat) (st : St) :
  post (run_goroutine n) st (fun _ st' => progress 0 0 st st').
Proof.
  revert st. induction n as [| n IH]; intros st; [apply progress_refl |].
  unfold post. cbn [run_goroutine].
  destruct (goroutine st) as [| s pc] eqn:Hg; [apply progress_refl |].
  assert (Hstep :
            post (bind (submit_step s pc)
                    (fun pc' =>
                       bind (fun st' =>
                               Ok (tt, with_goroutine (Submitting s pc') st'))
                            (fun _ => run_goroutine n))) st
                 (fun _ st' => progress 0 0 st st')).
  { apply post_bind.
    eapply post_conseq; [apply submit_step_quiet |].
    intros pc' st1 H1. apply post_bind. unfold post at 1.
    eapply post_conseq; [apply IH |].
    intros [] st2 H2. cbn in H2.
    apply (progress_trans 0 0 0 0 _ _ _ H1).
    destruct H2 as (HT & HW & evs & Ha & Hn & Hk).
    repeat split; try assumption. exists evs. repeat split; assumption. }
  destruct pc; try exact Hstep. apply progress_refl.
Qed.

Lemma yield_quiet (st : St) :
  post yield st (fun _ st' => progress 0 0 st st').
Proof.
  unfold yield, post. destruct (sched st) as [| n rest] eqn:Hs;
    [apply progress_refl |].
  pose proof (run_goroutine_quiet n (with_sched rest st)) as H.
  unfold post in H.
  destruct (run_goroutine n (with_sched rest st)) as [[[] st1] | |];
    try exact H.
Qed.

Lemma PowerExecutor_iteration_progress (s : PowerState) (st : St) :
  post (PowerExecutor_iteration s) st
       (fun r st' =>
          match r with
          | Some _ => progress 1 0 st st'
          | None => progress 1 1 st st'
          end).
Proof.
  unfold PowerExecutor_iteration. apply post_bind.
  eapply post_conseq; [apply GetCurrentTaskStatus_progress |].
  intros [e |] st1 H1; [exact H1 |].
  apply post_bind. eapply post_conseq; [apply yield_quiet |].
  intros [] st2 H2.
  pose proof (progress_trans _ _ _ _ _ _ _ H1 H2) as H12. clear H1 H2.
  revert H12. generalize st2. clear st1 st2. intros st2 H12.
  assert (Hrest : forall st3, progress 0 1 st2 st3 -> progress 1 1 st st3)
    by (intros st3 H3; exact (progress_trans _ _ _ _ _ _ _ H12 H3)).
  clear H12. revert Hrest. generalize (progress 1 1 st). intros Q Hrest.
  open_state st2. unfold post. unfold_ops.
  crunch; try exact I; apply Hrest; show_progress.
Qed.

Lemma int_add_1 (c t : Z) :
  0 <= c -> c < t -> t <= int_max -> int_add c 1 = c + 1.
Proof.
  intros H0 Hc Ht. unfold int_add. apply wrap_int_small.
  unfold int_range, int_min, int_max in *. lia.
Qed.

Lemma PowerExecutor_loop_spec (s : PowerState) (fuel : nat) :
  forall (c : Z) (st : St),
    0 <= c ->
    Timeout (pt st) <= int_max ->
    (Z.to_nat (Timeout (pt st) - c) <= fuel)%nat ->
    post (PowerExecutor_loop fuel s c) st
         (fun r st' =>
            match r with
            | inl c' =>
              exists k, progress k k st st'
                        /\ c' = c + Z.of_nat k
                        /\ c' <= Z.max c (Timeout (pt st))
                        /\ (TaskStatus (pt st') = true
                            \/ Timeout (pt st) <= c')
            | inr _ =>
              exists k, progress (S k) k st st'
                        /\ c + Z.of_nat k < Timeout (pt st)
            end).
Proof.
  induction fuel as [| fuel IH]; intros c st H0 Hmax Hfuel;
    cbn [PowerExecutor_loop];
    (apply post_bind; eapply post_conseq; [apply yield_quiet |];
     intros [] st1 H1; apply post_bind; unfold post at 1, get_pt;
     cbv beta iota;
     pose proof H1 as (HT & _);
     destruct (negb (TaskStatus (pt st1)) && (c <? Timeout (pt st1)))
              eqn:Hcond;
     [apply andb_true_iff in Hcond as [_ Hlt]; apply Z.ltb_lt in Hlt |]).
  - exfalso. lia.
  - unfold post, ret. exists 0%nat. split; [exact H1 |].
    split; [lia |]. split; [lia |].
    destruct (TaskStatus (pt st1)); [left; reflexivity | right].
    cbn in Hcond. apply Z.ltb_ge in Hcond. lia.
  - apply post_bind.
    eapply post_conseq; [apply PowerExecutor_iteration_progress |].
    intros [e |] st2 H2.
    + unfold post, ret. exists 0%nat. split.
      * exact (progress_trans 0 0 1 0 _ _ _ H1 H2).
      * lia.
    + pose proof (progress_trans 0 0 1 1 _ _ _ H1 H2) as H12.
      pose proof H12 as (HT2 & _). cbn in H12.
      rewrite (int_add_1 c (Timeout (pt st))) by lia.
      eapply post_conseq; [apply IH; lia |].
      intros [c' | e] st3 (k & Hk & Hc); cbv beta iota.
      * exists (S k). split.
        -- exact (progress_trans 1 1 k k _ _ _ H12 Hk).
        -- rewrite HT2 in Hc. destruct Hc as (Hc1 & Hc2 & Hd).
           split; [lia |]. split; [lia |].
           destruct Hd as [Hd | Hd]; [left; exact Hd | right; lia].
      * exists (S k). split.
        -- exact (progress_trans 1 1 (S k) k _ _ _ H12 Hk).
        -- lia.
  - unfold post, ret. exists 0%nat. split; [exact H1 |].
    split; [lia |]. split; [lia |].
    destruct (TaskStatus (pt st1)); [left; reflexivity | right].
    cbn in Hcond. apply Z.ltb_ge in Hcond. lia.
Qed.

Lemma PowerExecutor_progress (fuel : nat) (s : PowerState) (st : St) :
  0 <= Timeout (pt st) <= int_max ->
  (Z.to_nat (Timeout (pt st)) <= fuel)%nat ->
  post (PowerExecutor fuel s) st
       (fun _ st' =>
          exists n k, progress n k st st'
                      /\ (k <= n)%nat
                      /\ Z.of_nat n <= Timeout (pt st)).
Proof.
  intros HT Hfuel.
  unfold post, PowerExecutor, ResetTask, go_SubmitPowerState. unfold_ops.
  match goal with
  | |- context [PowerExecutor_loop fuel s 0 ?x] =>
    assert (H0 : progress 0 0 st x) by (open_state st; show_progress);
      revert H0; generalize x; intros st0 H0
  end.
  pose proof H0 as (HT0 & _).
  assert (Hl := PowerExecutor_loop_spec s fuel 0 st0).
  unfold post in Hl. rewrite HT0, Z.sub_0_r in Hl.
  specialize (Hl (Z.le_refl 0) (proj2 HT) Hfuel).
  destruct (PowerExecutor_loop fuel s 0 st0) as [[[c' | e] st1] | msg |];
    [| | exact I | exact Hl]; destruct Hl as (k & Hk & Hc).
  - pose proof (progress_trans 0 0 k k _ _ _ H0 Hk) as H1. cbn in H1.
    assert (Hrest : forall st2, progress 0 0 st1 st2 ->
                                exists n k0, progress n k0 st st2
                                             /\ (k0 <= n)%nat
                                             /\ Z.of_nat n <= Timeout (pt st)).
    { intros st2 H2. exists k, k. split.
      - pose proof (progress_trans k k 0 0 _ _ _ H1 H2) as H3.
        rewrite !Nat.add_0_r in H3. exact H3.
      - split; lia. }
    revert Hrest. clear. intros Hrest.
    open_state st1.
    crunch; try exact I; apply Hrest; show_progress.
  - exists (S k), k. split.
    + exact (progress_trans 0 0 (S k) k _ _ _ H0 Hk).
    + split; lia.
Qed.

(** The direction of the time-out report that the code does keep: an
    executor that returns without error and with the done flag still unset
    has written the time-out warning, followed only by the closing line. *)
Lemma PowerExecutor_reports_timeout (fuel : nat) (s : PowerState) (st : St) :
  0 <= Timeout (pt st) <= int_max ->
  (Z.to_nat (Timeout (pt st)) <= fuel)%nat ->
  post (PowerExecutor fuel s) st
       (fun r st' =>
          r = None ->
          TaskStatus (pt st') = false ->
          exists tr b,
            Blade (pt st') = Some b
            /\ trace st'
               = (tr ++ [EvLog Warn timeout_fmt
                               [ArgState s; ArgStr (ServerHardware.Name b)];
                         EvLog Info "Power Task Execution Completed" []])%list).
Proof.
  intros HT Hfuel.
  unfold post, PowerExecutor, ResetTask, go_SubmitPowerState. unfold_ops.
  match goal with
  | |- context [PowerExecutor_loop fuel s 0 ?x] =>
    assert (H0 : progress 0 0 st x) by (open_state st; show_progress);
      revert H0; generalize x; intros st0 H0
  end.
  pose proof H0 as (HT0 & _).
  assert (Hl := PowerExecutor_loop_spec s fuel 0 st0).
  unfold post in Hl. rewrite HT0, Z.sub_0_r in Hl.
  specialize (Hl (Z.le_refl 0) (proj2 HT) Hfuel).
  destruct (PowerExecutor_loop fuel s 0 st0) as [[[c' | e] st1] | msg |];
    [| | exact I | exact Hl]; destruct Hl as (k & Hk & Hc).
  - destruct Hc as (_ & _ & Hexit). destruct Hk as (HT1 & _).
    rewrite <- HT0, <- HT1 in Hexit. clear - Hexit.
    open_state st1.
    crunch; try exact I; intros _ Hdone; cbn in Hdone.
    + do 2 eexists. split; [reflexivity |].
      cbn. rewrite <- app_assoc. reflexivity.
    + exfalso. apply negb_false_iff, Z.ltb_lt in Heqb.
      destruct Hexit as [Hexit | Hexit]; [congruence | lia].
  - discriminate.
Qed.

(** The bound on the passes: with a [Timeout] that is not negative, fuel
    for [Timeout] passes is enough, for the loop and for the executor.  A
    run of the executor starts at most [Timeout] passes (status queries)
    and sleeps at most once per pass, each time for the length that
    [WaitTime] gives; and a loop that ends by its condition hands back a
    counter equal to the number of passes made, each pass having added one
    to it, and at most [Timeout]. *)
Lemma PowerExecutor_passes_bounded (fuel : nat) (s : PowerState) (st : St) :
  0 <= Timeout (pt st) <= int_max ->
  (Z.to_nat (Timeout (pt st)) <= fuel)%nat ->
  PowerExecutor fuel s st <> NoFuel
  /\ PowerExecutor_loop fuel s 0 st <> NoFuel
  /\ (forall r st',
        PowerExecutor fuel s st = Ok (r, st') ->
        exists evs,
          added (trace st) (trace st') evs
          /\ Z.of_nat (List.length (filter is_status_query evs))
             <= Timeout (pt st)
          /\ (List.length (filter is_sleep evs)
              <= List.length (filter is_status_query evs))%nat
          /\ Forall (eq (EvSleep (nap (WaitTime (pt st)))))
                    (filter is_sleep evs))
  /\ (forall c' st',
        PowerExecutor_loop fuel s 0 st = Ok (inl c', st') ->
        exists evs,
          added (trace st) (trace st') evs
          /\ c' = Z.of_nat (List.length (filter is_sleep evs))
          /\ List.length (filter is_status_query evs)
             = List.length (filter is_sleep evs)
          /\ c' <= Timeout (pt st)).
Proof.
  intros HT Hfuel.
  pose proof (PowerExecutor_progress fuel s st HT Hfuel) as He.
  assert (Hl := PowerExecutor_loop_spec s fuel 0 st (Z.le_refl 0) (proj2 HT)).
  rewrite Z.sub_0_r in Hl. specialize (Hl Hfuel).
  unfold post in He, Hl. repeat split.
  - intros Hno. rewrite Hno in He. exact He.
  - intros Hno. rewrite Hno in Hl. exact Hl.
  - intros r st' Hrun. rewrite Hrun in He.
    destruct He as (n & k & (_ & _ & evs & Ha & Hn & Hk) & Hkn & HnT).
    exists evs. rewrite Hn, Hk, repeat_length. repeat split; try assumption.
    apply Forall_forall. intros e Hin. symmetry.
    exact (repeat_spec _ _ _ Hin).
  - intros c' st' Hrun. rewrite Hrun in Hl.
    destruct Hl as (k & (_ & _ & evs & Ha & Hn & Hk) & Hc & Hle).
    exists evs. rewrite Hn, Hk, repeat_length.
    repeat split; try assumption; lia.
Qed.

(** The three steps of the goroutine, run without anything in between,
    are [SubmitPowerState]. *)
Lemma submit_run_SubmitPowerState (s : PowerState) (st : St) :
  match SubmitPowerState s st with
  | Ok (_, st') => submit_run 3 s AtQuery st = Ok (Finished, st')
  | Panic msg => submit_run 3 s AtQuery st = Panic msg
  | NoFuel => True
  end.
Proof.
  open_state st.
  unfold SubmitPowerState, submit_run, submit_step, GetCurrentPowerState.
  unfold_ops. crunch; try reflexivity; try exact I.
Qed.

(* ================================================================== *)
(** ** Further properties of the vocabulary and of the power task *)

(** X1.  [Equal] of a state of the vocabulary is the comparison of the
    string with the string of that state up to case, and it tells the
    three states apart: the string of a state is equal, in that sense, to
    the string of another state only when the two states are the same. *)
Theorem PowerState_Equal_tells_states_apart (p q : PowerState) :
  valid_state p ->
  valid_state q ->
  exists tp tq,
    PowerState_String p = Some tp
    /\ PowerState_String q = Some tq
    /\ (forall s, PowerState_Equal p s = Some (ci_equal s tp))
    /\ (PowerState_Equal p tq = Some true <-> p = q)
    /\ PowerState_Equal p (ToUpper tq) = PowerState_Equal p tq.
Proof.
  unfold valid_state. intros Hp Hq.
  assert (Hp' : p = 1 \/ p = 2 \/ p = 3) by lia.
  assert (Hq' : q = 1 \/ q = 2 \/ q = 3) by lia.
  destruct Hp' as [-> | [-> | ->]]; destruct Hq' as [-> | [-> | ->]];
    do 2 eexists;
    (split; [reflexivity |]); (split; [reflexivity |]);
    (split; [intros s0; rewrite <- ToUpper_ci_equal; reflexivity |]);
    (split; [| reflexivity]);
    (split; [intros H; vm_compute in H; congruence
            | intros H; try discriminate H; reflexivity]).
Qed.

(** X2.  The sleep of one pass is [WaitTime] taken as seconds: as long as
    that many seconds fit in the 64 bits of a duration, the length of the
    sleep is [WaitTime] times 10^9 nanoseconds; one second more than fit,
    and the product wraps around to a negative length. *)
Theorem nap_is_seconds (waittime : Z) :
  - 9223372036 <= waittime <= 9223372036 ->
  nap waittime = 1000000000 * waittime
  /\ (0 <= waittime -> 0 <= nap waittime)
  /\ nap 9223372037 < 0.
Proof.
  intros H. assert (Hn : nap waittime = 1000000000 * waittime).
  { unfold nap, int_mul.
    rewrite (wrap_int_small (1000 * waittime))
      by (unfold int_range, int_min, int_max; lia).
    rewrite wrap_int_small by (unfold int_range, int_min, int_max; lia).
    lia. }
  split; [exact Hn |]. split; [lia |]. vm_compute. reflexivity.
Qed.

(** X3.  Resetting twice is resetting once, and a task as [NewPowerTask]
    makes it is a reset task already: [ResetTask] leaves it as it is. *)
Theorem ResetTask_idempotent (st : St) :
  exists st1,
    ResetTask st = Ok (tt, st1)
    /\ ResetTask st1 = Ok (tt, st1)
    /\ (forall b, pt st = NewPowerTask b -> st1 = st).
Proof.
  open_state st. eexists. split; [reflexivity |].
  split; [reflexivity |].
  intros b Hb. injection Hb as -> -> -> -> -> ->. reflexivity.
Qed.

(** X4.  When the lookup of the unit fails, [GetCurrentPowerState] returns
    the error of the lookup as it is, and the task is left untouched:
    state, blade and handle are what they were; the trace has the lookup
    and nothing else. *)
Theorem GetCurrentPowerState_lookup_failure
        (st : St) (b : ServerHardware.t) (err : error) (w' : World) :
  Blade (pt st) = Some b ->
  ServerHardware.URI b <> "" ->
  GetServerHardware (ServerHardware.URI b) (world st) = (inr err, w') ->
  exists st',
    GetCurrentPowerState st = Ok (Some err, st')
    /\ pt st' = pt st
    /\ world st' = w'
    /\ trace st' = (trace st ++ [EvLookup (ServerHardware.URI b)])%list.
Proof.
  intros Hb Huri Hw. open_state st. apply String.eqb_neq in Huri.
  unfold GetCurrentPowerState. unfold_ops. cbn. rewrite Huri. cbn.
  rewrite Hw. cbn. eexists. split; [reflexivity |]. repeat split.
Qed.

(** Closing a goal on the events between two explicit traces. *)
Ltac give_events :=
  first
    [ exists []; split; [unfold added; rewrite app_nil_r; reflexivity |]
    | eexists; split; [unfold added; cbn; rewrite <- ?app_assoc; reflexivity |] ].

Ltac no_such_event :=
  let H := fresh "Hin" in
  intros; intros H; cbn in H;
  repeat (destruct H as [H | H]; [discriminate H |]); exact H.

Ltac arith_states :=
  unfold valid_state, P_ON, P_OFF, P_UKNOWN in *; cbn in *; lia.

(** X5.  Whatever it returns, [GetCurrentPowerState] leaves the done flag,
    the task handle, [Timeout] and [WaitTime] alone and makes no call to
    the transport: one lookup at most.  A state of the vocabulary stays
    one, and after a return without error the state is one and the blade
    is there. *)
Theorem GetCurrentPowerState_frame
        (st st' : St) (r : option error) :
  GetCurrentPowerState st = Ok (r, st') ->
  TaskStatus (pt st') = TaskStatus (pt st)
  /\ CurrentTask (pt st') = CurrentTask (pt st)
  /\ Timeout (pt st') = Timeout (pt st)
  /\ WaitTime (pt st') = WaitTime (pt st)
  /\ (valid_state (State (pt st)) -> valid_state (State (pt st')))
  /\ (r = None ->
      valid_state (State (pt st')) /\ Blade (pt st') <> None)
  /\ exists evs,
      added (trace st) (trace st') evs
      /\ (forall m u body, ~ In (EvRest m u body) evs)
      /\ (List.length (filter is_remote evs) <= 1)%nat.
Proof.
  intros H. revert H. open_state st.
  unfold GetCurrentPowerState. unfold_ops.
  crunch; intros H; inversion H; subst; clear H; cbn;
    (split; [reflexivity |]); (split; [reflexivity |]);
    (split; [reflexivity |]); (split; [reflexivity |]);
    (split; [intros; arith_states |]);
    (split; [intros Hr;
             first [discriminate Hr
                   | split; [arith_states | discriminate]] |]);
    give_events; (split; [no_such_event | cbn; lia]).
Qed.

(** X6.  When its query of the current state fails, [SubmitPowerState]
    writes the error to the log and returns: it requests no change, and
    the done flag and the task handle stay as they were. *)
Theorem SubmitPowerState_query_failure
        (s : PowerState) (st st1 : St) (e : error) :
  GetCurrentPowerState st = Ok (Some e, st1) ->
  exists st' evs,
    SubmitPowerState s st = Ok (tt, st')
    /\ pt st' = pt st1
    /\ world st' = world st1
    /\ trace st'
       = (trace st1
            ++ [EvLog Error "Error getting current power state: %s"
                      [ArgErr e]])%list
    /\ TaskStatus (pt st') = TaskStatus (pt st)
    /\ CurrentTask (pt st') = CurrentTask (pt st)
    /\ added (trace st) (trace st') evs
    /\ filter is_put evs = [].
Proof.
  intros H. revert H. open_state st.
  unfold SubmitPowerState, GetCurrentPowerState. unfold_ops.
  crunch; intros H; inversion H; subst; clear H; cbn;
    do 2 eexists; (split; [reflexivity |]); cbn;
    do 5 (split; [reflexivity |]);
    (split; [unfold added; rewrite <- ?app_assoc; reflexivity
            | reflexivity]).
Qed.

(** X7.  When the change is accepted and its answer decodes,
    [SubmitPowerState] stores the decoded handle and leaves the done flag
    as it was: completion is left to the polling; no error is logged. *)
Theorem SubmitPowerState_accepted
        (s : PowerState) (ps data : string) (st st1 : St)
        (b : ServerHardware.t) (w : World) (t' : option Task.t) :
  GetCurrentPowerState st = Ok (None, st1) ->
  Blade (pt st1) = Some b ->
  s <> State (pt st1) ->
  PowerState_String s = Some ps ->
  RestAPICall PUT (ServerHardware.URI b ++ "/powerState")
              (Some (PowerRequest.mk ps "MomentaryPress")) (world st1)
  = (inl data, w) ->
  Unmarshal data (CurrentTask (pt st1)) = (t', None) ->
  exists st' evs,
    SubmitPowerState s st = Ok (tt, st')
    /\ CurrentTask (pt st') = t'
    /\ TaskStatus (pt st') = TaskStatus (pt st)
    /\ State (pt st') = State (pt st1)
    /\ world st' = w
    /\ added (trace st) (trace st') evs
    /\ filter (is_level Error) evs = [].
Proof.
  intros H Hb Hs Hps Hw Hu. apply Z.eqb_neq in Hs.
  after_query H. cbn in Hb, Hs, Hw, Hu. injection Hb as ->.
  unfold_ops. cbn. rewrite Hs, Hps, MOMPRESS_String. cbn.
  rewrite Hw. cbn. rewrite Hu. cbn.
  do 2 eexists. split; [reflexivity |]. cbn.
  do 4 (split; [reflexivity |]).
  split; [rewrite <- !app_assoc; reflexivity |].
  rewrite filter_app, lookup_events_no_error. reflexivity.
Qed.

(** X8.  [GetCurrentTaskStatus] returns an error only when there is a
    handle with a URI and either the GET on it failed, and then the task
    is untouched, or the answer to it did not decode. *)
Theorem GetCurrentTaskStatus_error_source
        (st st' : St) (e : error) :
  GetCurrentTaskStatus st = Ok (Some e, st') ->
  exists t,
    CurrentTask (pt st) = Some t
    /\ Task.URI t <> ""
    /\ ((RestAPICall GET (Task.URI t) None (world st) = (inr e, world st')
         /\ pt st' = pt st)
        \/ exists data,
            RestAPICall GET (Task.URI t) None (world st)
            = (inl data, world st')
            /\ snd (Unmarshal data (Some t)) = Some e).
Proof.
  intros H. revert H. open_state st.
  unfold GetCurrentTaskStatus. unfold_ops.
  crunch; intros H; inversion H; subst; clear H; cbn;
    eexists; (split; [reflexivity |]);
    (split; [apply String.eqb_neq;
             match goal with
             | Hn : negb _ = true |- _ =>
               apply negb_true_iff in Hn; exact Hn
             end |]).
  - right. eexists. split; [eassumption |].
    match goal with Hu : Unmarshal _ _ = _ |- _ => rewrite Hu end.
    reflexivity.
  - left. split; [assumption | reflexivity].
Qed.

Lemma spec_classify_valid (reported : string) :
  valid_state (spec_classify reported).
Proof.
  unfold spec_classify.
  destruct (ci_equal reported "On"); [arith_states |].
  destruct (ci_equal reported "Off"); arith_states.
Qed.

Lemma PowerState_String_invalid (s : PowerState) :
  int_range s -> ~ valid_state s -> PowerState_String s = None.
Proof.
  unfold valid_state, PowerState_String, powerstates. intros H Hs.
  rewrite table_lookup by exact H.
  destruct (Z.eqb_spec s 1); [lia |].
  destruct (Z.eqb_spec s 2); [lia |].
  destruct (Z.eqb_spec s 3); [lia | reflexivity].
Qed.

(** Branches that the vocabulary rules out. *)
Ltac refute :=
  match goal with
  | H : PowerState_Equal P_OFF _ = None |- _ =>
    rewrite PowerState_Equal_OFF in H; discriminate H
  | H : PowerState_Equal P_ON _ = None |- _ =>
    rewrite PowerState_Equal_ON in H; discriminate H
  | H : PowerControl_String P_MOMPRESS = None |- _ =>
    rewrite MOMPRESS_String in H; discriminate H
  | H : PowerState_String _ = None |- _ =>
    vm_compute in H; discriminate H
  end.

(** X9.  [SubmitPowerState] never polls and requests a change at most
    once; and when it has requested one, its query of the current state
    had succeeded and had found a state other than the target. *)
Theorem SubmitPowerState_change_only_when_needed
        (s : PowerState) (st st' : St) (evs : list Event) :
  SubmitPowerState s st = Ok (tt, st') ->
  added (trace st) (trace st') evs ->
  (List.length (filter is_put evs) <= 1)%nat
  /\ (forall u body, ~ In (EvRest GET u body) evs)
  /\ (filter is_put evs <> [] ->
      exists st1,
        GetCurrentPowerState st = Ok (None, st1)
        /\ s <> State (pt st1)).
Proof.
  intros H Ha. revert H Ha. open_state st.
  unfold SubmitPowerState, GetCurrentPowerState. unfold_ops.
  crunch; intros H Ha; inversion H; subst; clear H;
    cbn in Ha; rewrite <- ?app_assoc in Ha; apply app_inv_head in Ha;
    subst evs; cbn;
    (split; [lia |]); (split; [no_such_event |]);
    intros Hput;
    try (exfalso; apply Hput; reflexivity);
    (eexists; split; [reflexivity |]); cbn;
    apply Z.eqb_neq;
    match goal with
    | Hn : negb _ = true |- _ => apply negb_true_iff in Hn; exact Hn
    end.
Qed.

(** X10.  With a target of the vocabulary and a blade to ask,
    [SubmitPowerState] does not panic, whatever the remote system answers.
    With a target outside the vocabulary it panics as soon as its query has
    succeeded: no state of the vocabulary is equal to such a target, and
    the target has no string to put in the request. *)
Theorem SubmitPowerState_panics_only_on_invalid_target
        (s : PowerState) (st : St) (b : ServerHardware.t) :
  Blade (pt st) = Some b ->
  (valid_state s -> exists st', SubmitPowerState s st = Ok (tt, st'))
  /\ (int_range s -> ~ valid_state s ->
      forall st1,
        GetCurrentPowerState st = Ok (None, st1) ->
        SubmitPowerState s st = Panic "index out of range").
Proof.
  intros Hb. split.
  - intros Hs.
    assert (Hs' : s = 1 \/ s = 2 \/ s = 3) by (unfold valid_state in Hs; lia).
    clear Hs. open_state st.
    unfold SubmitPowerState, GetCurrentPowerState. unfold_ops.
    destruct Hs' as [-> | [-> | ->]];
      crunch; try refute; eexists; reflexivity.
  - intros Hr Hs st1 H. after_query H. unfold_ops. cbn.
    pose proof (spec_classify_valid (ServerHardware.PowerState b1)) as Hv.
    assert (Hne : (s =? spec_classify (ServerHardware.PowerState b1)) = false).
    { apply Z.eqb_neq. intros ->. exact (Hs Hv). }
    rewrite Hne. cbn. rewrite (PowerState_String_invalid s Hr Hs).
    reflexivity.
Qed.

(* ================================================================== *)
(** ** Further properties of the executor *)


(** X12.  A pass of the loop with a handle to poll, the goroutine being out
    of the way: the answer to the GET becomes the handle; the done flag is
    set when the new handle has a URI and its state is the completed one,
    and is otherwise what it was; and the pass sleeps its [WaitTime] in
    either case, also when it has just seen the task completed. *)
Theorem PowerExecutor_iteration_detects_completion
        (s : PowerState) (st : St) (b : ServerHardware.t) (t t' : Task.t)
        (data : string) (w : World) :
  sched st = [] ->
  Blade (pt st) = Some b ->
  CurrentTask (pt st) = Some t ->
  Task.URI t <> "" ->
  RestAPICall GET (Task.URI t) None (world st) = (inl data, w) ->
  Unmarshal data (Some t) = (Some t', None) ->
  exists st' evs,
    PowerExecutor_iteration s st = Ok (None, st')
    /\ CurrentTask (pt st') = Some t'
    /\ TaskStatus (pt st')
       = (negb (Task.URI t' =? "")%string
          && T_COMPLETED_Equal (Task.TaskState t')
          || TaskStatus (pt st))
    /\ world st' = w
    /\ added (trace st) (trace st') evs
    /\ filter is_remote evs = [EvRest GET (Task.URI t) None]
    /\ filter is_sleep evs = [EvSleep (nap (WaitTime (pt st)))].
Proof.
  intros Hs Hb Ht Huri Hw Hu. open_state st. apply String.eqb_neq in Huri.
  unfold PowerExecutor_iteration, GetCurrentTaskStatus, yield. unfold_ops.
  cbn. rewrite Huri. cbn. rewrite Hw. cbn. rewrite Hu. cbn.
  destruct (Task.URI t' =? "")%string eqn:Hu';
    destruct (T_COMPLETED_Equal (Task.TaskState t')) eqn:Hc;
    destruct TaskStatus0; cbn; rewrite ?Hu', ?Hc; cbn;
    rewrite ?Hu', ?Hc; cbn;
    do 2 eexists; (split; [reflexivity |]); cbn;
    do 3 (split; [reflexivity |]);
    (split; [rewrite <- !app_assoc; reflexivity |]);
    split; reflexivity.
Qed.

Lemma submit_step_keeps_done (s : PowerState) (pc : SubmitPc) (st : St) :
  TaskStatus (pt st) = true ->
  post (submit_step s pc) st (fun _ st' => TaskStatus (pt st') = true).
Proof.
  intros Hd. open_state st.
  unfold post, submit_step, GetCurrentPowerState. unfold_ops.
  destruct pc; crunch; try exact I; reflexivity.
Qed.

Lemma run_goroutine_keeps_done (n : nat) (st : St) :
  TaskStatus (pt st) = true ->
  post (run_goroutine n) st (fun _ st' => TaskStatus (pt st') = true).
Proof.
  revert st. induction n as [| n IH]; intros st Hd; [exact Hd |].
  unfold post. cbn [run_goroutine].
  destruct (goroutine st) as [| s pc] eqn:Hg; [exact Hd |].
  assert (Hstep :
            post (bind (submit_step s pc)
                    (fun pc' =>
                       bind (fun st' =>
                               Ok (tt, with_goroutine (Submitting s pc') st'))
                            (fun _ => run_goroutine n))) st
                 (fun _ st' => TaskStatus (pt st') = true)).
  { apply post_bind.
    eapply post_conseq; [apply submit_step_keeps_done; exact Hd |].
    intros pc' st1 H1. apply post_bind. unfold post at 1.
    apply IH. exact H1. }
  destruct pc; try exact Hstep. exact Hd.
Qed.

Lemma yield_keeps_done (st : St) :
  TaskStatus (pt st) = true ->
  post yield st (fun _ st' => TaskStatus (pt st') = true).
Proof.
  intros Hd. unfold yield, post.
  destruct (sched st) as [| n rest] eqn:Hs; [exact Hd |].
  pose proof (run_goroutine_keeps_done n (with_sched rest st) Hd) as H.
  unfold post in H.
  destruct (run_goroutine n (with_sched rest st)) as [[[] st1] | |];
    exact H.
Qed.

(** X13.  A done flag that is set stays set through the steps of the
    submission and through the status query, whatever the remote system
    answers.  And with the flag set, the loop of the
    executor makes no pass, however much fuel and time it has: it hands
    back the counter it was entered with, having queried no status and
    slept not once. *)
Theorem done_flag_stops_the_loop
        (fuel : nat) (s : PowerState) (c : Z) (st : St) :
  TaskStatus (pt st) = true ->
  (forall pc pc' st',
      submit_step s pc st = Ok (pc', st') -> TaskStatus (pt st') = true)
  /\ (forall r st',
         GetCurrentTaskStatus st = Ok (r, st') -> TaskStatus (pt st') = true)
  /\ PowerExecutor_loop fuel s c st <> NoFuel
  /\ (forall r st',
         PowerExecutor_loop fuel s c st = Ok (r, st') ->
         r = inl c
         /\ TaskStatus (pt st') = true
         /\ exists evs,
             added (trace st) (trace st') evs
             /\ filter is_status_query evs = []
             /\ filter is_sleep evs = []).
Proof.
  intros Hd. split; [| split].
  - intros pc pc' st' H. pose proof (submit_step_keeps_done s pc st Hd) as Hp.
    unfold post in Hp. rewrite H in Hp. exact Hp.
  - intros r st'. open_state st.
    unfold GetCurrentTaskStatus. unfold_ops.
    crunch; intros H; inversion H; subst; reflexivity.
  - assert (Hloop :
              post (PowerExecutor_loop fuel s c) st
                   (fun r st' =>
                      r = inl c /\ TaskStatus (pt st') = true
                      /\ progress 0 0 st st')).
    { destruct fuel; cbn [PowerExecutor_loop];
        (apply post_bind;
         pose proof (yield_keeps_done st Hd) as Hk;
         pose proof (yield_quiet st) as Hq;
         unfold post in Hk, Hq |- *;
         destruct (yield st) as [[[] st1] | |]; try exact I; try exact Hq;
         unfold bind, get_pt, ret; rewrite Hk; cbn;
         repeat split; try reflexivity; try exact Hk; apply Hq). }
    unfold post in Hloop. split.
    + intros Hno. rewrite Hno in Hloop. exact Hloop.
    + intros r st' Hrun. rewrite Hrun in Hloop.
      destruct Hloop as (Hr & Hd' & _ & _ & evs & Ha & Hn & Hk).
      split; [exact Hr |]. split; [exact Hd' |].
      exists evs. split; [exact Ha |]. split.
      * apply length_zero_iff_nil. exact Hn.
      * exact Hk.
Qed.

Lemma PowerExecutor_passes (fuel : nat) (s : PowerState) (st : St) :
  0 <= Timeout (pt st) <= int_max ->
  (Z.to_nat (Timeout (pt st)) <= fuel)%nat ->
  post (PowerExecutor fuel s) st
       (fun r st' =>
          exists k,
            progress (match r with None => k | Some _ => S k end) k st st').
Proof.
  intros HT Hfuel.
  unfold post, PowerExecutor, ResetTask, go_SubmitPowerState. unfold_ops.
  match goal with
  | |- context [PowerExecutor_loop fuel s 0 ?x] =>
    assert (H0 : progress 0 0 st x) by (open_state st; show_progress);
      revert H0; generalize x; intros st0 H0
  end.
  pose proof H0 as (HT0 & _).
  assert (Hl := PowerExecutor_loop_spec s fuel 0 st0).
  unfold post in Hl. rewrite HT0, Z.sub_0_r in Hl.
  specialize (Hl (Z.le_refl 0) (proj2 HT) Hfuel).
  destruct (PowerExecutor_loop fuel s 0 st0) as [[[c' | e] st1] | msg |];
    [| | exact I | exact Hl]; destruct Hl as (k & Hk & Hc).
  - pose proof (progress_trans 0 0 k k _ _ _ H0 Hk) as H1. cbn in H1.
    assert (Hrest : forall st2, progress 0 0 st1 st2 ->
                                exists k0, progress k0 k0 st st2).
    { intros st2 H2. exists k.
      pose proof (progress_trans k k 0 0 _ _ _ H1 H2) as H3.
      rewrite !Nat.add_0_r in H3. exact H3. }
    revert Hrest. clear. intros Hrest.
    open_state st1.
    crunch; try exact I; apply Hrest; show_progress.
  - exists k. exact (progress_trans 0 0 (S k) k _ _ _ H0 Hk).
Qed.

(** X14.  An error of the polling ends the executor in the middle of a
    pass: when the executor returns an error, the events it added hold one
    status query more than sleeps, the failed pass not having slept; when
    it returns without error, every pass made has slept. *)
Theorem PowerExecutor_error_cuts_pass_short
        (fuel : nat) (s : PowerState) (st st' : St) (r : option error) :
  0 <= Timeout (pt st) <= int_max ->
  (Z.to_nat (Timeout (pt st)) <= fuel)%nat ->
  PowerExecutor fuel s st = Ok (r, st') ->
  exists evs,
    added (trace st) (trace st') evs
    /\ (r = None ->
        List.length (filter is_status_query evs)
        = List.length (filter is_sleep evs))
    /\ (r <> None ->
        List.length (filter is_status_query evs)
        = S (List.length (filter is_sleep evs))).
Proof.
  intros HT Hfuel Hrun.
  pose proof (PowerExecutor_passes fuel s st HT Hfuel) as H.
  unfold post in H. rewrite Hrun in H.
  destruct H as (k & _ & _ & evs & Ha & Hn & Hk).
  exists evs. split; [exact Ha |].
  rewrite Hn, Hk, repeat_length.
  destruct r as [e |]; split; intros Hr; congruence.
Qed.

Lemma idle_iteration (s : PowerState) (st : St) (t : Task.t) :
  sched st = [] ->
  CurrentTask (pt st) = Some t ->
  Task.URI t = "" ->
  PowerExecutor_iteration s st
  = Ok (None, with_trace (trace st ++ idle_pass (WaitTime (pt st))) st).
Proof.
  intros Hs Ht Hu. destruct t as [u ? ? ? ? ?]. cbn in Hu. subst u.
  open_state st.
  unfold PowerExecutor_iteration, GetCurrentTaskStatus, yield, idle_pass.
  unfold_ops. cbn. rewrite <- !app_assoc. reflexivity.
Qed.

Lemma idle_loop (s : PowerState) (fuel : nat) :
  forall (c : Z) (st : St) (t : Task.t),
    sched st = [] ->
    CurrentTask (pt st) = Some t ->
    Task.URI t = "" ->
    TaskStatus (pt st) = false ->
    0 <= c <= Timeout (pt st) ->
    Timeout (pt st) <= int_max ->
    (Z.to_nat (Timeout (pt st) - c) <= fuel)%nat ->
    PowerExecutor_loop fuel s c st
    = Ok (inl (Timeout (pt st)),
          with_trace
            (trace st
               ++ idle_passes (WaitTime (pt st))
                              (Z.to_nat (Timeout (pt st) - c)))
            st).
Proof.
  induction fuel as [| fuel IH]; intros c st t Hs Ht Hu Hd Hc Hmax Hfuel;
    cbn [PowerExecutor_loop];
    cbv beta iota delta [bind get_pt yield]; rewrite Hs; cbv beta iota;
    rewrite Hd; cbn [negb andb];
    destruct (Z.ltb_spec c (Timeout (pt st))) as [Hlt | Hge].
  - exfalso. lia.
  - assert (c = Timeout (pt st)) by lia. subst c.
    rewrite Z.sub_diag. cbn. rewrite app_nil_r.
    destruct st. reflexivity.
  - rewrite (idle_iteration s st t Hs Ht Hu). cbv beta iota.
    rewrite (int_add_1 c (Timeout (pt st))) by lia.
    rewrite (IH (c + 1) _ t) by (cbn; assumption || lia).
    cbn.
    replace (Z.to_nat (Timeout (pt st) - c))
      with (S (Z.to_nat (Timeout (pt st) - (c + 1)))) by lia.
    cbn [idle_passes]. unfold with_trace. cbn.
    rewrite <- !app_assoc. reflexivity.
  - assert (c = Timeout (pt st)) by lia. subst c.
    rewrite Z.sub_diag. cbn. rewrite app_nil_r.
    destruct st. reflexivity.
Qed.

Lemma idle_passes_sleeps (w : Z) (n : nat) :
  filter is_sleep (idle_passes w n) = repeat (EvSleep (nap w)) n
  /\ filter is_remote (idle_passes w n) = [].
Proof.
  induction n as [| n [IH1 IH2]]; [split; reflexivity |].
  cbn [idle_passes]. rewrite !filter_app, IH1, IH2. split; reflexivity.
Qed.

(** X15.  An executor that is left alone, its submission not getting to
    run while it polls, with a blade to name in the log: the handle stays
    empty, so no pass calls the remote system, and the loop runs its full
    course.  It makes [Timeout] passes, each with the same three lines and
    one sleep, then writes the time-out warning and the closing line, and
    returns without error, the done flag unset and the remote system
    untouched. *)
Theorem PowerExecutor_left_alone
        (fuel : nat) (s : PowerState) (st : St) (b : ServerHardware.t) :
  Blade (pt st) = Some b ->
  sched st = [] ->
  0 <= Timeout (pt st) <= int_max ->
  (Z.to_nat (Timeout (pt st)) <= fuel)%nat ->
  exists st' evs,
    PowerExecutor fuel s st = Ok (None, st')
    /\ TaskStatus (pt st') = false
    /\ CurrentTask (pt st') = Some Task.empty
    /\ world st' = world st
    /\ added (trace st) (trace st') evs
    /\ evs = (idle_passes (WaitTime (pt st)) (Z.to_nat (Timeout (pt st)))
               ++ [EvLog Warn timeout_fmt
                         [ArgState s; ArgStr (ServerHardware.Name b)];
                   EvLog Info closing_fmt []])%list
    /\ Z.of_nat (List.length (filter is_sleep evs)) = Timeout (pt st)
    /\ filter is_remote evs = [].
Proof.
  intros Hb Hs HT Hfuel. open_state st.
  unfold PowerExecutor, ResetTask, go_SubmitPowerState.
  cbv beta iota delta [bind set_State set_TaskStatus set_CurrentTask
                            modify_pt].
  erewrite idle_loop;
    [| reflexivity | reflexivity | reflexivity | reflexivity
     | cbn; lia | cbn; lia | cbn; rewrite Z.sub_0_r; exact Hfuel].
  unfold_ops. cbn. rewrite Z.ltb_irrefl. cbn.
  do 2 eexists. split; [reflexivity |]. cbn.
  do 3 (split; [reflexivity |]).
  split; [rewrite <- !app_assoc; reflexivity |].
  rewrite Z.sub_0_r. split; [reflexivity |].
  destruct (idle_passes_sleeps WaitTime0 (Z.to_nat Timeout0)) as [H1 H2].
  rewrite !filter_app, H1, H2, length_app, repeat_length. cbn.
  split; [lia | reflexivity].
Qed.

Lemma run_goroutine_finished (n : nat) (s : PowerState) (st : St) :
  goroutine st = Submitting s Finished ->
  run_goroutine n st = Ok (tt, st).
Proof.
  intros Hg. destruct n; cbn [run_goroutine]; [reflexivity |].
  rewrite Hg. reflexivity.
Qed.

Lemma loop_already_satisfied
      (fuel : nat) (s : PowerState) (c : Z) (st : St)
      (b b' : ServerHardware.t) (w' : World) (n : nat) (rest : list nat) :
  goroutine st = Submitting s AtQuery ->
  sched st = S (S n) :: rest ->
  Blade (pt st) = Some b ->
  ServerHardware.URI b <> "" ->
  GetServerHardware (ServerHardware.URI b) (world st) = (inl b', w') ->
  spec_classify (ServerHardware.PowerState b') = s ->
  PowerExecutor_loop fuel s c st
  = Ok (inl c,
        mkSt (with_TaskStatus true
                (with_Blade (Some b') (with_State s (pt st))))
             w'
             (trace st ++ lookup_events (ServerHardware.URI b) b'
                ++ [already_set s])
             (Submitting s Finished) rest).
Proof.
  intros Hg Hs Hb Huri Hw Hc.
  assert (Hq : GetCurrentPowerState (with_sched rest st)
               = Ok (None,
                     mkSt (with_Blade (Some b') (with_State s (pt st)))
                          w'
                          (trace st
                             ++ lookup_events (ServerHardware.URI b) b')
                          (Submitting s AtQuery) rest)).
  { rewrite (GetCurrentPowerState_found (with_sched rest st) b b' w')
      by assumption.
    cbn. rewrite Hc, Hg. reflexivity. }
  destruct fuel; cbn [PowerExecutor_loop];
    cbv beta iota delta [bind yield]; rewrite Hs;
    cbn [run_goroutine with_sched goroutine]; rewrite Hg;
    cbv beta iota delta [bind submit_step]; rewrite Hq;
    cbv beta iota delta [ret]; cbn [with_goroutine goroutine pt world trace
                                                   sched];
    unfold_ops; cbn; rewrite Z.eqb_refl; cbn;
    (rewrite run_goroutine_finished with (s := s) by reflexivity);
    cbn; rewrite <- !app_assoc; reflexivity.
Qed.

(** X16.  A target that the unit already has, the submission getting its
    two steps in before the loop first looks at the done flag, and a
    [Timeout] above zero: the executor asks the unit for its state and
    nothing else.  It requests no change, polls nothing and does not
    sleep; it returns without error and without a time-out warning, the
    done flag set, whatever fuel it is given. *)
Theorem PowerExecutor_already_satisfied
        (fuel : nat) (s : PowerState) (st : St) (b b' : ServerHardware.t)
        (w' : World) (n : nat) (rest : list nat) :
  Blade (pt st) = Some b ->
  ServerHardware.URI b <> "" ->
  GetServerHardware (ServerHardware.URI b) (world st) = (inl b', w') ->
  spec_classify (ServerHardware.PowerState b') = s ->
  sched st = S (S n) :: rest ->
  0 < Timeout (pt st) ->
  exists st',
    PowerExecutor fuel s st = Ok (None, st')
    /\ TaskStatus (pt st') = true
    /\ State (pt st') = s
    /\ Blade (pt st') = Some b'
    /\ CurrentTask (pt st') = Some Task.empty
    /\ world st' = w'
    /\ trace st'
       = (trace st ++ lookup_events (ServerHardware.URI b) b'
            ++ [already_set s; EvLog Info closing_fmt []])%list.
Proof.
  intros Hb Huri Hw Hc Hs HT. apply Z.ltb_lt in HT.
  unfold PowerExecutor, ResetTask, go_SubmitPowerState.
  cbv beta iota delta [bind set_State set_TaskStatus set_CurrentTask
                            modify_pt].
  erewrite loop_already_satisfied;
    [| reflexivity | exact Hs | exact Hb | exact Huri | exact Hw | exact Hc].
  unfold_ops. cbn. rewrite HT. cbn.
  eexists. split; [reflexivity |]. cbn.
  do 5 (split; [reflexivity |]).
  rewrite <- !app_assoc. reflexivity.
Qed.

Lemma lookup_events_filters (uri : string) (b : ServerHardware.t) :
  filter is_remote (lookup_events uri b) = [EvLookup uri]
  /\ filter is_sleep (lookup_events uri b) = []
  /\ filter is_status_query (lookup_events uri b) = []
  /\ filter is_timeout_warning (lookup_events uri b) = [].
Proof.
  unfold lookup_events.
  destruct (ci_equal _ "On" || ci_equal _ "Off"); repeat split.
Qed.

Lemma loop_exits_when_done
      (fuel : nat) (s : PowerState) (c : Z) (st st1 : St) :
  yield st = Ok (tt, st1) ->
  TaskStatus (pt st1) = true ->
  PowerExecutor_loop fuel s c st = Ok (inl c, st1).
Proof.
  intros Hy Hd.
  destruct fuel; cbn [PowerExecutor_loop];
    cbv beta iota delta [bind get_pt]; rewrite Hy; cbv beta iota;
    rewrite Hd; reflexivity.
Qed.

(** X17.  A change request that the transport refuses, the submission
    getting its two steps in before the loop first looks at the done flag,
    and a [Timeout] above zero: the executor returns without error all the
    same.  The refusal is in the log at the error level and nowhere else:
    there is one PUT, no poll, no sleep and no time-out warning, and the
    done flag is set as after a change that went through. *)
Theorem PowerExecutor_hides_refused_change
        (fuel : nat) (s : PowerState) (ps : string) (st : St)
        (b b' : ServerHardware.t) (w' w'' : World) (err : error)
        (n : nat) (rest : list nat) :
  Blade (pt st) = Some b ->
  ServerHardware.URI b <> "" ->
  GetServerHardware (ServerHardware.URI b) (world st) = (inl b', w') ->
  s <> spec_classify (ServerHardware.PowerState b') ->
  PowerState_String s = Some ps ->
  RestAPICall PUT (ServerHardware.URI b' ++ "/powerState")
              (Some (PowerRequest.mk ps "MomentaryPress")) w'
  = (inr err, w'') ->
  sched st = S (S n) :: rest ->
  0 < Timeout (pt st) ->
  exists st' evs,
    PowerExecutor fuel s st = Ok (None, st')
    /\ TaskStatus (pt st') = true
    /\ CurrentTask (pt st') = Some Task.empty
    /\ world st' = w''
    /\ added (trace st) (trace st') evs
    /\ filter is_remote evs
       = [EvLookup (ServerHardware.URI b);
          EvRest PUT (ServerHardware.URI b' ++ "/powerState")
                 (Some (PowerRequest.mk ps "MomentaryPress"))]
    /\ filter (is_level Error) evs
       = [EvLog Error "Error with power state request: %s" [ArgErr err]]
    /\ filter is_status_query evs = []
    /\ filter is_sleep evs = []
    /\ filter is_timeout_warning evs = [].
Proof.
  intros Hb Huri Hw Hne Hps Hput Hs HT.
  apply Z.ltb_lt in HT. apply Z.eqb_neq in Hne.
  unfold PowerExecutor, ResetTask, go_SubmitPowerState.
  cbv beta iota delta [bind set_State set_TaskStatus set_CurrentTask
                            modify_pt].
  match goal with
  | |- context [PowerExecutor_loop fuel s 0 ?x] =>
    assert (Hq : GetCurrentPowerState (with_sched rest x)
                 = Ok (None,
                       mkSt (with_Blade (Some b')
                               (with_State
                                  (spec_classify
                                     (ServerHardware.PowerState b'))
                                  (pt x)))
                            w'
                            (trace st
                               ++ lookup_events (ServerHardware.URI b) b')
                            (Submitting s AtQuery) rest))
      by (rewrite (GetCurrentPowerState_found (with_sched rest x) b b' w')
           by assumption; reflexivity);
      assert (Hy : exists st1,
                 yield x = Ok (tt, st1)
                 /\ TaskStatus (pt st1) = true
                 /\ CurrentTask (pt st1) = Some Task.empty
                 /\ Timeout (pt st1) = Timeout (pt st)
                 /\ Blade (pt st1) = Some b'
                 /\ world st1 = w''
                 /\ exists evs,
                     trace st1 = (trace st ++ evs)%list
                     /\ filter is_remote evs
                        = [EvLookup (ServerHardware.URI b);
                           EvRest PUT (ServerHardware.URI b' ++ "/powerState")
                                  (Some (PowerRequest.mk ps "MomentaryPress"))]
                     /\ filter (is_level Error) evs
                        = [EvLog Error "Error with power state request: %s"
                                 [ArgErr err]]
                     /\ filter is_status_query evs = []
                     /\ filter is_sleep evs = []
                     /\ filter is_timeout_warning evs = [])
  end.
  { cbv beta iota delta [yield]. cbn [sched with_goroutine with_pt].
    rewrite Hs. cbn [run_goroutine with_sched with_goroutine goroutine].
    cbv beta iota delta [bind submit_step]. rewrite Hq.
    cbv beta iota delta [ret].
    cbn [with_goroutine goroutine pt world trace sched].
    unfold_ops. cbn. rewrite Hne, Hps, MOMPRESS_String. cbn.
    rewrite Hput. cbn.
    rewrite run_goroutine_finished with (s := s) by reflexivity.
    eexists. split; [reflexivity |]. cbn.
    do 5 (split; [reflexivity |]).
    eexists. split; [rewrite <- !app_assoc; reflexivity |].
    destruct (lookup_events_filters (ServerHardware.URI b) b')
      as (H1 & H2 & H3 & H4).
    rewrite !filter_app, H1, H2, H3, H4, lookup_events_no_error.
    repeat split. }
  destruct Hy as (st1 & Hy & Hd & Hct & HTe & Hb1 & Hw1 & evs & Ht & Hf).
  rewrite (loop_exits_when_done fuel s 0 _ st1 Hy Hd).
  clear Hy Hq. open_state st1. unfold_ops. cbn. rewrite HT. cbn.
  do 2 eexists. split; [reflexivity |]. cbn.
  do 3 (split; [reflexivity |]).
  split; [rewrite <- app_assoc; reflexivity |].
  destruct Hf as (F1 & F2 & F3 & F4 & F5).
  rewrite !filter_app, F1, F2, F3, F4, F5. repeat split.
Qed.

Lemma yield_finished (s0 : PowerState) (st : St) :
  goroutine st = Submitting s0 Finished ->
  exists l, yield st = Ok (tt, with_sched l st).
Proof.
  intros Hg. unfold yield. destruct (sched st) as [| m l] eqn:Hs.
  - exists []. destruct st. cbn in *. subst. reflexivity.
  - exists l. rewrite run_goroutine_finished with (s := s0);
      [reflexivity | exact Hg].
Qed.

(** A pass that polls a handle and finds the task completed, the
    submission having finished. *)
Lemma iteration_completes
      (s s0 : PowerState) (st : St) (b : ServerHardware.t) (t1 t2 : Task.t)
      (data : string) (w : World) :
  goroutine st = Submitting s0 Finished ->
  Blade (pt st) = Some b ->
  CurrentTask (pt st) = Some t1 ->
  Task.URI t1 <> "" ->
  RestAPICall GET (Task.URI t1) None (world st) = (inl data, w) ->
  Unmarshal data (Some t1) = (Some t2, None) ->
  Task.URI t2 <> "" ->
  T_COMPLETED_Equal (Task.TaskState t2) = true ->
  exists l evs,
    PowerExecutor_iteration s st
    = Ok (None,
          mkSt (with_TaskStatus true (with_CurrentTask (Some t2) (pt st)))
               w (trace st ++ evs) (goroutine st) l)
    /\ filter is_remote evs = [EvRest GET (Task.URI t1) None]
    /\ filter is_sleep evs = [EvSleep (nap (WaitTime (pt st)))]
    /\ filter is_timeout_warning evs = [].
Proof.
  intros Hg Hb Ht Hu1 Hw Hu Hu2 Hc.
  apply String.eqb_neq in Hu1. apply String.eqb_neq in Hu2.
  open_state st. destruct sched0 as [| m l];
    unfold PowerExecutor_iteration, GetCurrentTaskStatus, yield;
    unfold_ops; cbn; rewrite Hu1; cbn; rewrite Hw; cbn; rewrite Hu; cbn;
    try (rewrite run_goroutine_finished with (s := s0) by reflexivity);
    cbn; rewrite Hu2, Hc; cbn; rewrite ?Hu2; cbn;
    do 2 eexists;
    (split; [rewrite <- !app_assoc; reflexivity |]); repeat split.
Qed.

(** X18.  The course of a change that goes through: the unit is in another
    state than the target, the change is accepted and answered with a task
    handle, the submission has finished before the loop starts, and the
    first poll of the handle finds the task completed, with a [Timeout] of
    more than one pass.  The executor then makes one lookup, one PUT and
    one GET, in that order, sleeps once, and returns without error and
    without a time-out warning, the done flag set and the polled handle in
    the task. *)
Theorem PowerExecutor_polls_to_completion
        (fuel : nat) (s : PowerState) (ps : string) (st : St)
        (b b' : ServerHardware.t) (w1 w2 w3 : World)
        (data1 data2 : string) (t1 t2 : Task.t)
        (n : nat) (rest : list nat) :
  Blade (pt st) = Some b ->
  ServerHardware.URI b <> "" ->
  GetServerHardware (ServerHardware.URI b) (world st) = (inl b', w1) ->
  s <> spec_classify (ServerHardware.PowerState b') ->
  PowerState_String s = Some ps ->
  RestAPICall PUT (ServerHardware.URI b' ++ "/powerState")
              (Some (PowerRequest.mk ps "MomentaryPress")) w1
  = (inl data1, w2) ->
  Unmarshal data1 (Some Task.empty) = (Some t1, None) ->
  Task.URI t1 <> "" ->
  RestAPICall GET (Task.URI t1) None w2 = (inl data2, w3) ->
  Unmarshal data2 (Some t1) = (Some t2, None) ->
  Task.URI t2 <> "" ->
  T_COMPLETED_Equal (Task.TaskState t2) = true ->
  sched st = S (S (S n)) :: rest ->
  1 < Timeout (pt st) ->
  exists st' evs,
    PowerExecutor (S fuel) s st = Ok (None, st')
    /\ TaskStatus (pt st') = true
    /\ CurrentTask (pt st') = Some t2
    /\ world st' = w3
    /\ added (trace st) (trace st') evs
    /\ filter is_remote evs
       = [EvLookup (ServerHardware.URI b);
          EvRest PUT (ServerHardware.URI b' ++ "/powerState")
                 (Some (PowerRequest.mk ps "MomentaryPress"));
          EvRest GET (Task.URI t1) None]
    /\ filter is_sleep evs = [EvSleep (nap (WaitTime (pt st)))]
    /\ filter is_timeout_warning evs = [].
Proof.
  intros Hb Huri Hw Hne Hps Hput Hd1 Hu1 Hget Hd2 Hu2 Hc Hs HT.
  apply Z.eqb_neq in Hne.
  unfold PowerExecutor, ResetTask, go_SubmitPowerState.
  cbv beta iota delta [bind set_State set_TaskStatus set_CurrentTask
                            modify_pt].
  match goal with
  | |- context [PowerExecutor_loop (S fuel) s 0 ?x] =>
    assert (Hq : GetCurrentPowerState (with_sched rest x)
                 = Ok (None,
                       mkSt (with_Blade (Some b')
                               (with_State
                                  (spec_classify
                                     (ServerHardware.PowerState b'))
                                  (pt x)))
                            w1
                            (trace st
                               ++ lookup_events (ServerHardware.URI b) b')
                            (Submitting s AtQuery) rest))
      by (rewrite (GetCurrentPowerState_found (with_sched rest x) b b' w1)
           by assumption; reflexivity);
      assert (Hy : exists evs,
                 yield x
                 = Ok (tt,
                       mkSt (mkPowerTask
                               (Some b')
                               (spec_classify (ServerHardware.PowerState b'))
                               false (Some t1)
                               (Timeout (pt st)) (WaitTime (pt st)))
                            w2 (trace st ++ evs)
                            (Submitting s Finished) rest)
                 /\ filter is_remote evs
                    = [EvLookup (ServerHardware.URI b);
                       EvRest PUT (ServerHardware.URI b' ++ "/powerState")
                              (Some (PowerRequest.mk ps "MomentaryPress"))]
                 /\ filter is_sleep evs = []
                 /\ filter is_timeout_warning evs = [])
  end.
  { cbv beta iota delta [yield]. cbn [sched with_goroutine with_pt].
    rewrite Hs. cbn [run_goroutine with_sched with_goroutine goroutine].
    cbv beta iota delta [bind submit_step]. rewrite Hq.
    cbv beta iota delta [ret].
    cbn [with_goroutine goroutine pt world trace sched].
    unfold_ops. cbn. rewrite Hne, Hps, MOMPRESS_String. cbn.
    rewrite Hput. cbn.
    change (Some (Task.mk "" "" "" "" 0 "")) with (Some Task.empty).
    rewrite Hd1. cbn.
    rewrite run_goroutine_finished with (s := s) by reflexivity.
    eexists. split; [rewrite <- !app_assoc; reflexivity |].
    destruct (lookup_events_filters (ServerHardware.URI b) b')
      as (H1 & H2 & H3 & H4).
    rewrite !filter_app, H1, H2, H4. repeat split. }
  destruct Hy as (evs1 & Hy & F1 & F2 & F3). clear Hq.
  cbn [PowerExecutor_loop]. cbv beta iota delta [bind get_pt].
  rewrite Hy. cbv beta iota. cbn [pt TaskStatus Timeout negb andb].
  assert (H0T : (0 <? Timeout (pt st)) = true) by (apply Z.ltb_lt; lia).
  rewrite H0T.
  match goal with
  | |- context [PowerExecutor_iteration s ?x] =>
    destruct (iteration_completes s s x b' t1 t2 data2 w3)
      as (l & evs2 & Hit & G1 & G2 & G3);
      [reflexivity | reflexivity | reflexivity | exact Hu1 | exact Hget
       | exact Hd2 | exact Hu2 | exact Hc |]
  end.
  rewrite Hit. cbv beta iota.
  match goal with
  | |- context [PowerExecutor_loop fuel s ?c ?x] =>
    destruct (yield_finished s x eq_refl) as (l' & Hy2);
      rewrite (loop_exits_when_done fuel s c x _ Hy2 eq_refl)
  end.
  unfold_ops. cbn.
  assert (H1T : (1 <? Timeout (pt st)) = true) by (apply Z.ltb_lt; lia).
  change (int_add 0 1) with 1. rewrite H1T. cbn.
  do 2 eexists. split; [reflexivity |]. cbn.
  do 3 (split; [reflexivity |]).
  split; [rewrite <- !app_assoc; reflexivity |].
  rewrite !filter_app, F1, F2, F3, G1, G2, G3. repeat split.
Qed.

(** X19.  The time-out is reported whenever it is one: an executor that
    returns without error while the done flag is still unset has written
    the time-out warning, naming the target and the blade, with the
    closing line as the only thing after it. *)
Theorem PowerExecutor_timeout_is_reported
        (fuel : nat) (s : PowerState) (st st' : St) :
  0 <= Timeout (pt st) <= int_max ->
  (Z.to_nat (Timeout (pt st)) <= fuel)%nat ->
  PowerExecutor fuel s st = Ok (None, st') ->
  TaskStatus (pt st') = false ->
  exists tr b,
    Blade (pt st') = Some b
    /\ trace st'
       = (tr ++ [EvLog Warn timeout_fmt
                       [ArgState s; ArgStr (ServerHardware.Name b)];
                 EvLog Info closing_fmt []])%list.
Proof.
  intros HT Hfuel Hrun Hd.
  pose proof (PowerExecutor_reports_timeout fuel s st HT Hfuel) as H.
  unfold post in H. rewrite Hrun in H.
  exact (H eq_refl Hd).
Qed.

(* ================================================================== *)
(** ** The loop condition and the bound on the passes *)

(** With the done flag set, the loop makes no pass. *)
Lemma loop_skipped_when_done
      (fuel : nat) (s : PowerState) (c : Z) (st : St) :
  TaskStatus (pt st) = true ->
  post (PowerExecutor_loop fuel s c) st
       (fun r st' =>
          r = inl c /\ TaskStatus (pt st') = true /\ progress 0 0 st st').
Proof.
  intros Hd.
  destruct fuel; cbn [PowerExecutor_loop];
    (apply post_bind;
     pose proof (yield_keeps_done st Hd) as Hk;
     pose proof (yield_quiet st) as Hq;
     unfold post in Hk, Hq |- *;
     destruct (yield st) as [[[] st1] | |]; try exact I; try exact Hq;
     unfold bind, get_pt, ret; rewrite Hk; cbn;
     repeat split; try reflexivity; try exact Hk; apply Hq).
Qed.

(** With the counter at [Timeout] or beyond, the loop makes no pass. *)
Lemma loop_skipped_at_bound
      (fuel : nat) (s : PowerState) (c : Z) (st : St) :
  Timeout (pt st) <= c ->
  post (PowerExecutor_loop fuel s c) st
       (fun r st' => r = inl c /\ progress 0 0 st st').
Proof.
  intros Hc.
  destruct fuel; cbn [PowerExecutor_loop];
    (apply post_bind;
     pose proof (yield_quiet st) as Hq;
     unfold post in Hq |- *;
     destruct (yield st) as [[[] st1] | |]; try exact I; try exact Hq;
     pose proof Hq as (HT & _);
     unfold bind, get_pt, ret;
     assert (Hlt : (c <? Timeout (pt st1)) = false)
       by (apply Z.ltb_ge; lia);
     rewrite Hlt, andb_false_r; split; [reflexivity | exact Hq]).
Qed.

(** With the done flag unset and the counter below [Timeout] at the test,
    the loop makes a pass. *)
Lemma loop_passes_when_open
      (fuel : nat) (s : PowerState) (c : Z) (st st1 : St) :
  0 <= c ->
  Timeout (pt st) <= int_max ->
  (Z.to_nat (Timeout (pt st) - c) <= fuel)%nat ->
  yield st = Ok (tt, st1) ->
  TaskStatus (pt st1) = false ->
  c < Timeout (pt st1) ->
  post (PowerExecutor_loop fuel s c) st
       (fun _ st' => exists n k, progress (S n) k st st').
Proof.
  intros H0 Hmax Hfuel Hy Hd Hlt.
  pose proof (yield_quiet st) as Hq. unfold post in Hq. rewrite Hy in Hq.
  pose proof Hq as (HT & _).
  destruct fuel as [| fuel]; [exfalso; lia |].
  cbn [PowerExecutor_loop]. apply post_bind. unfold post at 1.
  rewrite Hy. apply post_bind. unfold post at 1, get_pt. cbv beta iota.
  rewrite Hd. apply Z.ltb_lt in Hlt. rewrite Hlt. cbn [negb andb].
  apply Z.ltb_lt in Hlt.
  apply post_bind.
  eapply post_conseq; [apply PowerExecutor_iteration_progress |].
  intros [e |] st2 H2.
  - unfold post, ret. exists 0%nat, 0%nat.
    exact (progress_trans 0 0 1 0 _ _ _ Hq H2).
  - pose proof (progress_trans 0 0 1 1 _ _ _ Hq H2) as H12.
    pose proof H12 as (HT2 & _). cbn in H12.
    rewrite (int_add_1 c (Timeout (pt st))) by lia.
    eapply post_conseq; [apply PowerExecutor_loop_spec; lia |].
    intros [c' | e] st3 (k & Hk & _); cbv beta iota.
    + exists k, (S k). exact (progress_trans 1 1 k k _ _ _ H12 Hk).
    + exists (S k), (S k).
      exact (progress_trans 1 1 (S k) k _ _ _ H12 Hk).
Qed.

(** C3.  The loop of [PowerExecutor] runs while the done flag is unset
    and the counter is below [Timeout], and no longer.  With a [Timeout]
    that is not negative it comes to an end: fuel for [Timeout] passes is
    enough, for the loop and for the executor.  A run of the executor
    starts at most [Timeout] passes (status queries) and sleeps at most
    once per pass, each time for the length that [WaitTime] gives; a loop
    that ends by its condition hands back a counter equal to the number of
    passes made, each pass having added one to it, and at most [Timeout],
    and it ends so only with the done flag set or the counter at
    [Timeout].  The condition needs the flag unset: entered with the flag
    set, the loop makes no pass, whatever the counter.  It needs the
    counter below [Timeout]: entered with the counter at [Timeout] or
    beyond, the loop makes no pass, whatever the flag.  And it needs no
    more: with the flag unset and the counter below [Timeout] when the
    condition is first tested, a pass is made. *)
Theorem PowerExecutor_bounded (fuel : nat) (s : PowerState) (st : St) :
  0 <= Timeout (pt st) <= int_max ->
  (Z.to_nat (Timeout (pt st)) <= fuel)%nat ->
  PowerExecutor fuel s st <> NoFuel
  /\ PowerExecutor_loop fuel s 0 st <> NoFuel
  /\ (forall r st',
        PowerExecutor fuel s st = Ok (r, st') ->
        exists evs,
          added (trace st) (trace st') evs
          /\ Z.of_nat (List.length (filter is_status_query evs))
             <= Timeout (pt st)
          /\ (List.length (filter is_sleep evs)
              <= List.length (filter is_status_query evs))%nat
          /\ Forall (eq (EvSleep (nap (WaitTime (pt st)))))
                    (filter is_sleep evs))
  /\ (forall c' st',
        PowerExecutor_loop fuel s 0 st = Ok (inl c', st') ->
        exists evs,
          added (trace st) (trace st') evs
          /\ c' = Z.of_nat (List.length (filter is_sleep evs))
          /\ List.length (filter is_status_query evs)
             = List.length (filter is_sleep evs)
          /\ c' <= Timeout (pt st))
  /\ (forall c' st',
        PowerExecutor_loop fuel s 0 st = Ok (inl c', st') ->
        TaskStatus (pt st') = true \/ Timeout (pt st) <= c')
  /\ (forall c,
        TaskStatus (pt st) = true ->
        PowerExecutor_loop fuel s c st <> NoFuel
        /\ forall r st',
            PowerExecutor_loop fuel s c st = Ok (r, st') ->
            r = inl c
            /\ exists evs,
                added (trace st) (trace st') evs
                /\ filter is_status_query evs = []
                /\ filter is_sleep evs = [])
  /\ (forall c,
        Timeout (pt st) <= c ->
        PowerExecutor_loop fuel s c st <> NoFuel
        /\ forall r st',
            PowerExecutor_loop fuel s c st = Ok (r, st') ->
            r = inl c
            /\ exists evs,
                added (trace st) (trace st') evs
                /\ filter is_status_query evs = []
                /\ filter is_sleep evs = [])
  /\ (forall c st1,
        0 <= c ->
        yield st = Ok (tt, st1) ->
        TaskStatus (pt st1) = false ->
        c < Timeout (pt st1) ->
        PowerExecutor_loop fuel s c st <> NoFuel
        /\ forall r st',
            PowerExecutor_loop fuel s c st = Ok (r, st') ->
            exists evs,
              added (trace st) (trace st') evs
              /\ filter is_status_query evs <> []).
Proof.
  intros HT Hfuel.
  destruct (PowerExecutor_passes_bounded fuel s st HT Hfuel)
    as (He & Hl & Hpasses & Hcount).
  do 4 (split; [assumption |]).
  split; [| split; [| split]].
  - intros c' st' Hrun.
    assert (Hs := PowerExecutor_loop_spec s fuel 0 st (Z.le_refl 0)
                                          (proj2 HT)).
    rewrite Z.sub_0_r in Hs. specialize (Hs Hfuel).
    unfold post in Hs. rewrite Hrun in Hs.
    destruct Hs as (k & _ & _ & _ & Hexit). exact Hexit.
  - intros c Hd.
    pose proof (loop_skipped_when_done fuel s c st Hd) as Hp.
    unfold post in Hp. split.
    + intros Hno. rewrite Hno in Hp. exact Hp.
    + intros r st' Hrun. rewrite Hrun in Hp.
      destruct Hp as (Hr & _ & _ & _ & evs & Ha & Hn & Hk).
      split; [exact Hr |]. exists evs. split; [exact Ha |].
      split; [apply length_zero_iff_nil; exact Hn | exact Hk].
  - intros c Hc.
    pose proof (loop_skipped_at_bound fuel s c st Hc) as Hp.
    unfold post in Hp. split.
    + intros Hno. rewrite Hno in Hp. exact Hp.
    + intros r st' Hrun. rewrite Hrun in Hp.
      destruct Hp as (Hr & _ & _ & evs & Ha & Hn & Hk).
      split; [exact Hr |]. exists evs. split; [exact Ha |].
      split; [apply length_zero_iff_nil; exact Hn | exact Hk].
  - intros c st1 H0 Hy Hd Hlt.
    assert (Hf : (Z.to_nat (Timeout (pt st) - c) <= fuel)%nat) by lia.
    pose proof (loop_passes_when_open fuel s c st st1 H0 (proj2 HT) Hf
                                      Hy Hd Hlt) as Hp.
    unfold post in Hp. split.
    + intros Hno. rewrite Hno in Hp. exact Hp.
    + intros r st' Hrun. rewrite Hrun in Hp.
      destruct Hp as (n & k & _ & _ & evs & Ha & Hn & _).
      exists evs. split; [exact Ha |].
      intros Hnil. rewrite Hnil in Hn. discriminate Hn.
Qed.

End Properties.

(* ================================================================== *)
(** ** The properties on the small remote system *)

(** C2.  The unit is on and is asked to go off, with a [Timeout] of one
    pass; the goroutine submits the change before the first test of the
    loop, and the one status query of the loop finds the task completed.
    The loop sets the done flag in that pass and ends with the counter at
    [Timeout]; the executor returns no error, the done flag is set, and the
    trace holds the time-out warning all the same. *)
Theorem PowerExecutor_warns_when_done_at_bound :
  exists st',
    PowerExecutor (remote := Demo.unit_on) 1 P_OFF
                  (Demo.start Demo.unit_on 0%nat (Demo.task 1) [3%nat])
    = Ok (None, st')
    /\ PowerExecutor_loop (remote := Demo.unit_on) 1 P_OFF 0
         (with_goroutine (Submitting P_OFF AtQuery)
            (Demo.start Demo.unit_on 0%nat (Demo.task 1) [3%nat]))
       = Ok (inl 1, with_trace (removelast (removelast (trace st'))) st')
    /\ TaskStatus (pt st') = true
    /\ List.length (filter is_status_query (trace st')) = 1%nat
    /\ filter is_timeout_warning (trace st')
       = [EvLog Warn timeout_fmt [ArgState P_OFF; ArgStr "Encl1, bay 1"]].
Proof.
  eexists. split; [vm_compute; reflexivity |].
  repeat split; vm_compute; reflexivity.
Qed.

(** A target outside the three constants has no string: the submission
    stops at [s.String()], before any change request. *)
Example SubmitPowerState_invalid_target :
  SubmitPowerState (remote := Demo.unit_on) 0
                   (Demo.start Demo.unit_on 0%nat (Demo.task 36) [])
  = Panic "index out of range".
Proof. reflexivity. Qed.

Lemma ResetTask_clears_example :
  exists st',
    ResetTask (remote := Demo.unit_on)
              (Demo.start Demo.unit_on 5%nat
                          (mkPowerTask (Some (Demo.blade "On")) P_ON true
                                       (Some Demo.completed) 36 10) [])
    = Ok (tt, st')
    /\ pt st' = mkPowerTask (Some (Demo.blade "On")) P_UKNOWN false
                            (Some Task.empty) 36 10.
Proof.
  eexists. split; reflexivity.
Qed.

Lemma GetCurrentPowerState_missing_hardware_witness :
  exists st',
    GetCurrentPowerState (remote := Demo.unit_on)
                         (Demo.start Demo.unit_on 0%nat Demo.orphan [])
    = Ok (Some "Can't get power on blade without hardware", st')
    /\ State (pt st') = P_UKNOWN
    /\ trace st' = [].
Proof.
  destruct (GetCurrentPowerState_missing_hardware
              (remote := Demo.unit_on)
              (Demo.start Demo.unit_on 0%nat Demo.orphan [])
              Demo.no_blade eq_refl eq_refl)
    as (st' & Hrun & Hs & _ & _ & Ht).
  exists st'. repeat split; assumption.
Defined.

Lemma GetCurrentTaskStatus_polls_handle_witness :
  (exists st',
      GetCurrentTaskStatus (remote := Demo.unit_on)
                           (Demo.start Demo.unit_on 0%nat (Demo.task 36) [])
      = Ok (None, st')
      /\ pt st' = Demo.task 36 /\ world st' = 0%nat)
  /\ (exists st',
         GetCurrentTaskStatus
           (remote := Demo.unit_on)
           (Demo.start Demo.unit_on 0%nat
                       (with_CurrentTask (Some Demo.running) (Demo.task 36)) [])
         = Ok (None, st')
         /\ CurrentTask (pt st') = Some Demo.completed
         /\ filter is_remote (trace st') = [EvRest GET "/rest/tasks/7" None]).
Proof.
  split.
  - destruct (GetCurrentTaskStatus_polls_handle
                (remote := Demo.unit_on)
                (Demo.start Demo.unit_on 0%nat (Demo.task 36) [])
                Task.empty eq_refl)
      as [Hempty _].
    destruct (Hempty eq_refl) as (st' & evs & Hrun & Hpt & Hw & _).
    exists st'. repeat split; assumption.
  - destruct (GetCurrentTaskStatus_polls_handle
                (remote := Demo.unit_on)
                (Demo.start Demo.unit_on 0%nat
                   (with_CurrentTask (Some Demo.running) (Demo.task 36)) [])
                Demo.running eq_refl)
      as [_ Hurl].
    assert (Hne : Task.URI Demo.running <> "") by discriminate.
    destruct (Hurl Hne (Demo.blade "") eq_refl
                   (inl "task:completed") 1%nat eq_refl)
      as (st' & evs & Hrun & Hpt & Hw & Ha & Hf).
    exists st'. split; [exact Hrun |]. split.
    + rewrite Hpt. reflexivity.
    + unfold added in Ha. cbn in Ha. rewrite Ha. exact Hf.
Defined.

Lemma GetCurrentPowerState_classifies_witness :
  exists st',
    GetCurrentPowerState (remote := Demo.unit_standby)
                         (Demo.start Demo.unit_standby 0%nat (Demo.task 36) [])
    = Ok (None, st')
    /\ State (pt st') = P_UKNOWN
    /\ filter (is_level Warn) (trace st')
       = [EvLog Warn unknown_fmt [ArgStr "Standby"; ArgStr "Encl1, bay 1"]].
Proof.
  assert (Hne : ServerHardware.URI (Demo.blade "") <> "") by discriminate.
  destruct (GetCurrentPowerState_classifies
              (remote := Demo.unit_standby)
              (Demo.start Demo.unit_standby 0%nat (Demo.task 36) [])
              (Demo.blade "") (Demo.blade "Standby") 1%nat
              eq_refl Hne eq_refl)
    as (st' & evs & Hrun & Ha & _ & _ & _ & _ & Hunknown & _).
  destruct (Hunknown eq_refl eq_refl) as [Hs Hw].
  exists st'. split; [exact Hrun |]. split; [exact Hs |].
  unfold added in Ha. cbn in Ha. rewrite Ha. exact Hw.
Defined.

Lemma SubmitPowerState_already_set_witness :
  exists st',
    SubmitPowerState (remote := Demo.unit_on) P_ON
                     (Demo.start Demo.unit_on 0%nat (Demo.task 36) [])
    = Ok (tt, st')
    /\ TaskStatus (pt st') = true
    /\ CurrentTask (pt st') = Some Task.empty
    /\ filter is_put (trace st') = [].
Proof.
  assert (Hq : exists st1,
             GetCurrentPowerState
               (remote := Demo.unit_on)
               (Demo.start Demo.unit_on 0%nat (Demo.task 36) [])
             = Ok (None, st1)
             /\ State (pt st1) = P_ON)
    by (eexists; split; reflexivity).
  destruct Hq as (st1 & Hq & Hs).
  destruct (SubmitPowerState_already_set P_ON _ st1 Hq Hs)
    as (st' & evs & Hrun & Ha & Hput & _ & Hdone & _ & Hempty & _).
  exists st'. split; [exact Hrun |]. split; [exact Hdone |].
  split; [exact (Hempty eq_refl) |].
  unfold added in Ha. cbn in Ha. rewrite Ha. exact Hput.
Defined.

Lemma SubmitPowerState_one_change_request_witness :
  exists st',
    SubmitPowerState (remote := Demo.unit_on) P_OFF
                     (Demo.start Demo.unit_on 0%nat (Demo.task 36) [])
    = Ok (tt, st')
    /\ filter is_put (trace st')
       = [EvRest PUT "/rest/server-hardware/1/powerState"
                 (Some (PowerRequest.mk "Off" "MomentaryPress"))].
Proof.
  assert (Hq : exists st1,
             GetCurrentPowerState
               (remote := Demo.unit_on)
               (Demo.start Demo.unit_on 0%nat (Demo.task 36) [])
             = Ok (None, st1)
             /\ Blade (pt st1) = Some (Demo.blade "On")
             /\ P_OFF <> State (pt st1))
    by (eexists; split; [reflexivity | split; [reflexivity | discriminate]]).
  destruct Hq as (st1 & Hq & Hb & Hs).
  destruct (SubmitPowerState_one_change_request
              P_OFF "Off" _ st1 (Demo.blade "On") Hq Hb Hs eq_refl)
    as (st' & evs & Hrun & Ha & Hput).
  exists st'. split; [exact Hrun |].
  unfold added in Ha. cbn in Ha. rewrite Ha. exact Hput.
Defined.

Lemma SubmitPowerState_swallows_failures_witness :
  (exists st',
      SubmitPowerState (remote := Demo.put_refused) P_OFF
                       (Demo.start Demo.put_refused 0%nat (Demo.task 36) [])
      = Ok (tt, st')
      /\ TaskStatus (pt st') = true
      /\ filter (is_level Error) (trace st')
         = [EvLog Error "Error with power state request: %s"
                  [ArgErr "connection refused"]])
  /\ (exists st',
         SubmitPowerState (remote := Demo.put_garbled) P_OFF
                          (Demo.start Demo.put_garbled 0%nat (Demo.task 36) [])
         = Ok (tt, st')
         /\ TaskStatus (pt st') = true
         /\ filter (is_level Error) (trace st')
            = [EvLog Error "Error with power state un-marshal: %s"
                     [ArgErr "invalid character"]]).
Proof.
  split.
  - assert (Hq : exists st1,
               GetCurrentPowerState
                 (remote := Demo.put_refused)
                 (Demo.start Demo.put_refused 0%nat (Demo.task 36) [])
               = Ok (None, st1)
               /\ Blade (pt st1) = Some (Demo.blade "On")
               /\ P_OFF <> State (pt st1)
               /\ world st1 = 1%nat)
      by (eexists; split;
          [reflexivity
          | repeat split; try reflexivity; discriminate]).
    destruct Hq as (st1 & Hq & Hb & Hs & Hw).
    destruct (SubmitPowerState_swallows_failures
                P_OFF "Off" _ st1 (Demo.blade "On") Hq Hb Hs eq_refl)
      as [Hrefused _].
    destruct (Hrefused "connection refused" 2%nat)
      as (st' & evs & Hrun & Hdone & _ & Ha & Herr).
    { rewrite Hw. reflexivity. }
    exists st'. split; [exact Hrun |]. split; [exact Hdone |].
    unfold added in Ha. cbn in Ha. rewrite Ha. exact Herr.
  - assert (Hq : exists st1,
               GetCurrentPowerState
                 (remote := Demo.put_garbled)
                 (Demo.start Demo.put_garbled 0%nat (Demo.task 36) [])
               = Ok (None, st1)
               /\ Blade (pt st1) = Some (Demo.blade "On")
               /\ P_OFF <> State (pt st1)
               /\ world st1 = 1%nat
               /\ CurrentTask (pt st1) = Some Task.empty)
      by (eexists; split;
          [reflexivity
          | repeat split; try reflexivity; discriminate]).
    destruct Hq as (st1 & Hq & Hb & Hs & Hw & Ht).
    destruct (SubmitPowerState_swallows_failures
                P_OFF "Off" _ st1 (Demo.blade "On") Hq Hb Hs eq_refl)
      as [_ Hgarbled].
    destruct (Hgarbled "<html>" 2%nat (Some Task.empty) "invalid character")
      as (st' & evs & Hrun & Hdone & Ha & Herr).
    { rewrite Hw. reflexivity. }
    { rewrite Ht. reflexivity. }
    exists st'. split; [exact Hrun |]. split; [exact Hdone |].
    unfold added in Ha. cbn in Ha. rewrite Ha. exact Herr.
Defined.

Lemma PowerExecutor_bounded_witness :
  PowerExecutor (remote := Demo.unit_on) 36 P_OFF
                (Demo.start Demo.unit_on 0%nat (Demo.task 36) [1%nat; 2%nat])
  <> NoFuel.
Proof.
  assert (HT : 0 <= 36 <= int_max) by (unfold int_max; lia).
  assert (Hfuel : (Z.to_nat 36 <= 36)%nat) by (vm_compute; lia).
  exact (proj1 (PowerExecutor_bounded
                  (remote := Demo.unit_on) 36 P_OFF
                  (Demo.start Demo.unit_on 0%nat (Demo.task 36)
                              [1%nat; 2%nat])
                  HT Hfuel)).
Defined.

(* ================================================================== *)
(** ** The further properties on the small remote systems *)

Lemma PowerState_Equal_tells_states_apart_witness :
  PowerState_Equal P_ON "Off" <> Some true.
Proof.
  assert (H1 : valid_state P_ON) by (unfold valid_state, P_ON; lia).
  assert (H2 : valid_state P_OFF) by (unfold valid_state, P_OFF; lia).
  destruct (PowerState_Equal_tells_states_apart P_ON P_OFF H1 H2)
    as (tp & tq & Hp & Hq & _ & Hiff & _).
  injection Hq as <-. intros H. apply Hiff in H. discriminate H.
Defined.

Lemma nap_is_seconds_witness : nap 10 = 10000000000.
Proof.
  assert (H : - 9223372036 <= 10 <= 9223372036) by lia.
  exact (proj1 (nap_is_seconds 10 H)).
Defined.

Lemma GetCurrentPowerState_lookup_failure_witness :
  exists st',
    GetCurrentPowerState (remote := Scenario.unreachable)
                         (Demo.start Scenario.unreachable 0%nat
                                     (Demo.task 36) [])
    = Ok (Some "no route to host", st')
    /\ pt st' = Demo.task 36.
Proof.
  assert (Hne : ServerHardware.URI (Demo.blade "") <> "") by discriminate.
  destruct (GetCurrentPowerState_lookup_failure
              (remote := Scenario.unreachable)
              (Demo.start Scenario.unreachable 0%nat (Demo.task 36) [])
              (Demo.blade "") "no route to host" 1%nat
              eq_refl Hne eq_refl)
    as (st' & Hrun & Hpt & _).
  exists st'. split; assumption.
Defined.

Lemma GetCurrentPowerState_frame_witness :
  exists st',
    GetCurrentPowerState (remote := Demo.unit_on)
                         (Demo.start Demo.unit_on 0%nat Scenario.stale [])
    = Ok (None, st')
    /\ TaskStatus (pt st') = true
    /\ CurrentTask (pt st') = Some Demo.completed.
Proof.
  assert (Hq : exists st',
             GetCurrentPowerState
               (remote := Demo.unit_on)
               (Demo.start Demo.unit_on 0%nat Scenario.stale [])
             = Ok (None, st'))
    by (eexists; cbv; reflexivity).
  destruct Hq as (st' & Hq).
  destruct (GetCurrentPowerState_frame _ _ _ Hq) as (Hd & Ht & _).
  exists st'. split; [exact Hq |]. split; assumption.
Defined.

Lemma SubmitPowerState_query_failure_witness :
  exists st',
    SubmitPowerState (remote := Scenario.unreachable) P_OFF
                     (Demo.start Scenario.unreachable 0%nat (Demo.task 36) [])
    = Ok (tt, st')
    /\ TaskStatus (pt st') = false
    /\ filter is_put (trace st') = [].
Proof.
  assert (Hq : exists st1,
             GetCurrentPowerState
               (remote := Scenario.unreachable)
               (Demo.start Scenario.unreachable 0%nat (Demo.task 36) [])
             = Ok (Some "no route to host", st1))
    by (eexists; cbv; reflexivity).
  destruct Hq as (st1 & Hq).
  destruct (SubmitPowerState_query_failure P_OFF _ st1 _ Hq)
    as (st' & evs & Hrun & _ & _ & _ & Hd & _ & Ha & Hput).
  exists st'. split; [exact Hrun |]. split; [exact Hd |].
  unfold added in Ha. cbn in Ha. rewrite Ha. exact Hput.
Defined.

Lemma SubmitPowerState_accepted_witness :
  exists st',
    SubmitPowerState (remote := Demo.unit_on) P_OFF
                     (Demo.start Demo.unit_on 0%nat (Demo.task 36) [])
    = Ok (tt, st')
    /\ CurrentTask (pt st') = Some Demo.running
    /\ TaskStatus (pt st') = false.
Proof.
  assert (Hq : exists st1,
             GetCurrentPowerState
               (remote := Demo.unit_on)
               (Demo.start Demo.unit_on 0%nat (Demo.task 36) [])
             = Ok (None, st1)
             /\ Blade (pt st1) = Some (Demo.blade "On")
             /\ P_OFF <> State (pt st1)
             /\ world st1 = 1%nat
             /\ CurrentTask (pt st1) = Some Task.empty)
    by (eexists; split;
        [reflexivity | repeat split; try reflexivity; discriminate]).
  destruct Hq as (st1 & Hq & Hb & Hs & Hw & Ht).
  destruct (SubmitPowerState_accepted
              P_OFF "Off" "task:running" _ st1 (Demo.blade "On") 2%nat
              (Some Demo.running) Hq Hb Hs eq_refl)
    as (st' & evs & Hrun & Hct & Hd & _).
  { rewrite Hw. reflexivity. }
  { rewrite Ht. reflexivity. }
  exists st'. split; [exact Hrun |]. split; assumption.
Defined.

Lemma GetCurrentTaskStatus_error_source_witness :
  exists st',
    GetCurrentTaskStatus (remote := Scenario.poll_fails)
                         (Demo.start Scenario.poll_fails 0%nat
                                     Scenario.polling [])
    = Ok (Some "i/o timeout", st')
    /\ exists t,
        CurrentTask Scenario.polling = Some t /\ Task.URI t <> "".
Proof.
  assert (Hq : exists st',
             GetCurrentTaskStatus
               (remote := Scenario.poll_fails)
               (Demo.start Scenario.poll_fails 0%nat Scenario.polling [])
             = Ok (Some "i/o timeout", st'))
    by (eexists; cbv; reflexivity).
  destruct Hq as (st' & Hq).
  destruct (GetCurrentTaskStatus_error_source _ _ _ Hq)
    as (t & Ht & Hu & _).
  exists st'. split; [exact Hq |]. exists t. split; assumption.
Defined.

Lemma SubmitPowerState_change_only_when_needed_witness :
  exists st',
    SubmitPowerState (remote := Demo.unit_on) P_OFF
                     (Demo.start Demo.unit_on 0%nat (Demo.task 36) [])
    = Ok (tt, st')
    /\ (List.length (filter is_put (trace st')) <= 1)%nat.
Proof.
  assert (Hq : exists st',
             SubmitPowerState
               (remote := Demo.unit_on) P_OFF
               (Demo.start Demo.unit_on 0%nat (Demo.task 36) [])
             = Ok (tt, st'))
    by (eexists; cbv; reflexivity).
  destruct Hq as (st' & Hq).
  destruct (SubmitPowerState_change_only_when_needed
              P_OFF _ st' (trace st') Hq eq_refl)
    as (Hle & _).
  exists st'. split; assumption.
Defined.

Lemma SubmitPowerState_panics_only_on_invalid_target_witness :
  exists st',
    SubmitPowerState (remote := Demo.unit_on) P_OFF
                     (Demo.start Demo.unit_on 0%nat (Demo.task 36) [])
    = Ok (tt, st').
Proof.
  destruct (SubmitPowerState_panics_only_on_invalid_target
              (remote := Demo.unit_on) P_OFF
              (Demo.start Demo.unit_on 0%nat (Demo.task 36) [])
              (Demo.blade "") eq_refl)
    as [Hv _].
  apply Hv. unfold valid_state, P_OFF. lia.
Defined.


Lemma PowerExecutor_iteration_detects_completion_witness :
  exists st',
    PowerExecutor_iteration (remote := Demo.unit_on) P_OFF
                            (Demo.start Demo.unit_on 0%nat Scenario.polling [])
    = Ok (None, st')
    /\ TaskStatus (pt st') = true
    /\ filter is_sleep (trace st') = [EvSleep 10000000000].
Proof.
  assert (Hne : Task.URI Demo.running <> "") by discriminate.
  destruct (PowerExecutor_iteration_detects_completion
              (remote := Demo.unit_on) P_OFF
              (Demo.start Demo.unit_on 0%nat Scenario.polling [])
              (Demo.blade "") Demo.running Demo.completed
              "task:completed" 1%nat
              eq_refl eq_refl eq_refl Hne eq_refl eq_refl)
    as (st' & evs & Hrun & _ & Hd & _ & Ha & _ & Hsl).
  exists st'. split; [exact Hrun |]. split.
  - rewrite Hd. reflexivity.
  - unfold added in Ha. cbn in Ha. rewrite Ha. exact Hsl.
Defined.

Lemma done_flag_stops_the_loop_witness :
  PowerExecutor_loop (remote := Demo.unit_on) 0 P_OFF 0
                     (Demo.start Demo.unit_on 0%nat Scenario.stale [3%nat])
  <> NoFuel.
Proof.
  destruct (done_flag_stops_the_loop
              (remote := Demo.unit_on) 0 P_OFF 0
              (Demo.start Demo.unit_on 0%nat Scenario.stale [3%nat])
              eq_refl)
    as (_ & _ & Hfuel & _).
  exact Hfuel.
Defined.

Lemma PowerExecutor_error_cuts_pass_short_witness :
  exists st',
    PowerExecutor (remote := Scenario.poll_fails) 36 P_OFF
                  (Demo.start Scenario.poll_fails 0%nat (Demo.task 36)
                              [3%nat])
    = Ok (Some "i/o timeout", st')
    /\ List.length (filter is_status_query (trace st'))
       = S (List.length (filter is_sleep (trace st'))).
Proof.
  assert (HT : 0 <= 36 <= int_max) by (unfold int_max; lia).
  assert (Hfuel : (Z.to_nat 36 <= 36)%nat) by (cbv; lia).
  assert (Hq : exists st',
             PowerExecutor
               (remote := Scenario.poll_fails) 36 P_OFF
               (Demo.start Scenario.poll_fails 0%nat (Demo.task 36) [3%nat])
             = Ok (Some "i/o timeout", st'))
    by (eexists; cbv; reflexivity).
  destruct Hq as (st' & Hq).
  destruct (PowerExecutor_error_cuts_pass_short
              (remote := Scenario.poll_fails) 36 P_OFF
              (Demo.start Scenario.poll_fails 0%nat (Demo.task 36) [3%nat])
              st' (Some "i/o timeout") HT Hfuel Hq)
    as (evs & Ha & _ & Herr).
  exists st'. split; [exact Hq |].
  unfold added in Ha. cbn in Ha. rewrite Ha. apply Herr. discriminate.
Defined.

Lemma PowerExecutor_left_alone_witness :
  exists st',
    PowerExecutor (remote := Demo.unit_on) 36 P_OFF
                  (Demo.start Demo.unit_on 0%nat
                              (NewPowerTask (Demo.blade "On")) [])
    = Ok (None, st')
    /\ Z.of_nat (List.length (filter is_sleep (trace st'))) = 36
    /\ world st' = 0%nat.
Proof.
  assert (HT : 0 <= 36 <= int_max) by (unfold int_max; lia).
  assert (Hfuel : (Z.to_nat 36 <= 36)%nat) by (cbv; lia).
  destruct (PowerExecutor_left_alone
              (remote := Demo.unit_on) 36 P_OFF
              (Demo.start Demo.unit_on 0%nat
                          (NewPowerTask (Demo.blade "On")) [])
              (Demo.blade "On") eq_refl eq_refl HT Hfuel)
    as (st' & evs & Hrun & _ & _ & Hw & Ha & _ & Hsl & _).
  exists st'. split; [exact Hrun |]. split; [| exact Hw].
  unfold added in Ha. cbn in Ha. rewrite Ha. exact Hsl.
Defined.

Lemma PowerExecutor_already_satisfied_witness :
  exists st',
    PowerExecutor (remote := Demo.unit_on) 0 P_ON
                  (Demo.start Demo.unit_on 0%nat (Demo.task 36) [2%nat])
    = Ok (None, st')
    /\ TaskStatus (pt st') = true
    /\ world st' = 1%nat.
Proof.
  assert (Hne : ServerHardware.URI (Demo.blade "") <> "") by discriminate.
  assert (HT : 0 < 36) by lia.
  destruct (PowerExecutor_already_satisfied
              (remote := Demo.unit_on) 0 P_ON
              (Demo.start Demo.unit_on 0%nat (Demo.task 36) [2%nat])
              (Demo.blade "") (Demo.blade "On") 1%nat 0%nat []
              eq_refl Hne eq_refl eq_refl eq_refl HT)
    as (st' & Hrun & Hd & _ & _ & _ & Hw & _).
  exists st'. split; [exact Hrun |]. split; assumption.
Defined.

Lemma PowerExecutor_timeout_is_reported_witness :
  exists st' tr,
    PowerExecutor (remote := Demo.unit_on) 2 P_OFF
                  (Demo.start Demo.unit_on 0%nat (Demo.task 2) [])
    = Ok (None, st')
    /\ trace st'
       = (tr ++ [EvLog Warn timeout_fmt
                       [ArgState P_OFF; ArgStr "Encl1, bay 1"];
                 EvLog Info closing_fmt []])%list.
Proof.
  assert (HT : 0 <= 2 <= int_max) by (unfold int_max; lia).
  assert (Hfuel : (Z.to_nat 2 <= 2)%nat) by (cbv; lia).
  assert (Hq : exists st',
             PowerExecutor
               (remote := Demo.unit_on) 2 P_OFF
               (Demo.start Demo.unit_on 0%nat (Demo.task 2) [])
             = Ok (None, st')
             /\ TaskStatus (pt st') = false
             /\ Blade (pt st') = Some (Demo.blade ""))
    by (eexists; split; [cbv; reflexivity | split; reflexivity]).
  destruct Hq as (st' & Hq & Hd & Hb).
  destruct (PowerExecutor_timeout_is_reported
              (remote := Demo.unit_on) 2 P_OFF
              (Demo.start Demo.unit_on 0%nat (Demo.task 2) [])
              st' HT Hfuel Hq Hd)
    as (tr & b & Hb' & Htr).
  exists st', tr. split; [exact Hq |].
  rewrite Hb in Hb'. injection Hb' as <-. exact Htr.
Defined.

Lemma PowerExecutor_hides_refused_change_witness :
  exists st',
    PowerExecutor (remote := Demo.put_refused) 36 P_OFF
                  (Demo.start Demo.put_refused 0%nat (Demo.task 36) [2%nat])
    = Ok (None, st')
    /\ TaskStatus (pt st') = true
    /\ filter (is_level Error) (trace st')
       = [EvLog Error "Error with power state request: %s"
                [ArgErr "connection refused"]].
Proof.
  assert (Hne : ServerHardware.URI (Demo.blade "") <> "") by discriminate.
  assert (Hs : P_OFF <> spec_classify "On") by discriminate.
  assert (HT : 0 < 36) by lia.
  destruct (PowerExecutor_hides_refused_change
              (remote := Demo.put_refused) 36 P_OFF "Off"
              (Demo.start Demo.put_refused 0%nat (Demo.task 36) [2%nat])
              (Demo.blade "") (Demo.blade "On") 1%nat 2%nat
              "connection refused" 0%nat []
              eq_refl Hne eq_refl Hs eq_refl eq_refl eq_refl HT)
    as (st' & evs & Hrun & Hd & _ & _ & Ha & _ & Herr & _).
  exists st'. split; [exact Hrun |]. split; [exact Hd |].
  unfold added in Ha. cbn in Ha. rewrite Ha. exact Herr.
Defined.

Lemma PowerExecutor_polls_to_completion_witness :
  exists st',
    PowerExecutor (remote := Demo.unit_on) 36 P_OFF
                  (Demo.start Demo.unit_on 0%nat (Demo.task 36) [3%nat])
    = Ok (None, st')
    /\ TaskStatus (pt st') = true
    /\ CurrentTask (pt st') = Some Demo.completed
    /\ filter is_timeout_warning (trace st') = [].
Proof.
  assert (Hne : ServerHardware.URI (Demo.blade "") <> "") by discriminate.
  assert (Hs : P_OFF <> spec_classify "On") by discriminate.
  assert (Hu1 : Task.URI Demo.running <> "") by discriminate.
  assert (Hu2 : Task.URI Demo.completed <> "") by discriminate.
  assert (HT : 1 < 36) by lia.
  destruct (PowerExecutor_polls_to_completion
              (remote := Demo.unit_on) 35 P_OFF "Off"
              (Demo.start Demo.unit_on 0%nat (Demo.task 36) [3%nat])
              (Demo.blade "") (Demo.blade "On") 1%nat 2%nat 3%nat
              "task:running" "task:completed" Demo.running Demo.completed
              0%nat []
              eq_refl Hne eq_refl Hs eq_refl eq_refl eq_refl Hu1 eq_refl
              eq_refl Hu2 eq_refl eq_refl HT)
    as (st' & evs & Hrun & Hd & Ht & _ & Ha & _ & _ & Hwarn).
  exists st'. split; [exact Hrun |]. split; [exact Hd |].
  split; [exact Ht |].
  unfold added in Ha. cbn in Ha. rewrite Ha. exact Hwarn.
Defined.
